(** * Playful benchmarker: benchmark orchestration and score aggregation

    A shallow embedding of the three pieces of the application that carry
    behaviour:

    - [RunResult.jsx]: the per-dimension score aggregation
      ([averageScores] and [scoreData]);
    - [components/benchmark/BenchmarkRunner.jsx]: [handleStartBenchmark],
      the orchestration that creates paused runs and starts them;
    - [pages/StartBenchmark.jsx]: [handleStartBenchmark], the older
      orchestration that creates runs and, for a scenario that carries
      reviewers, one result per reviewer.

    JavaScript numbers are IEEE-754 binary64 values; they are modelled with
    the executable specification of binary floating point of the core
    library ([SpecFloat], precision 53, maximal exponent 1024).  Plain
    objects used as dictionaries are finite maps with string keys.  The
    asynchronous handlers are state-passing functions over a [World] that
    holds the remote tables, the notifications shown, the console, the
    running flag and the list of collaborator calls issued so far; the
    collaborators (impersonation client, target system, data gateway) are
    oracles that may answer differently at every point of the history. *)

From Stdlib Require Import ZArith Lia Bool.
From Stdlib Require Import Floats.SpecFloat.
From stdpp Require Import base option list strings gmap fin_maps.

Local Open Scope Z_scope.

(** * Part I: the embedding *)

(** ** JavaScript numbers *)

Module JSNumber.

Definition prec : Z := 53.
Definition emax : Z := 1024.

Definition num : Type := spec_float.

(** [a + b] and [a / b] on numbers. *)
Definition add (a b : num) : num := SFadd prec emax a b.
Definition div (a b : num) : num := SFdiv prec emax a b.

(** The number denoted by an integer literal. *)
Definition of_Z (n : Z) : num := binary_normalize prec emax n 0 false.

(** The number denoted by the decimal literal [n / 10^k]: the binary64
    value nearest to the quotient. *)
Definition of_decimal (n : Z) (k : Z) : num :=
  match n with
  | Z0 => S754_zero false
  | Zpos p => div (S754_finite false p 0) (S754_finite false (Z.to_pos (10 ^ k)) 0)
  | Zneg p => div (S754_finite true p 0) (S754_finite false (Z.to_pos (10 ^ k)) 0)
  end.

Definition zero : num := S754_zero false.
Definition one : num := of_Z 1.

(** ToBoolean on a number: [0], [-0] and [NaN] are falsy. *)
Definition truthy (x : num) : bool :=
  match x with
  | S754_zero _ | S754_nan => false
  | _ => true
  end.

(** The text produced by [x.toFixed(1)], kept in structured form:
    - ["NaN"], ["Infinity"], ["-Infinity"] for non-finite numbers;
    - the default rendering of the number when [|x| >= 10^21];
    - otherwise a sign and the integer [n] of tenths, printed with one
      fractional digit. *)
Inductive fixed1 : Type :=
| FxNaN
| FxInfinity (negative : bool)
| FxDefault (x : num)
| FxTenths (negative : bool) (n : Z).

(** [ge_1e21 m e] : [m * 2^e >= 10^21]. *)
Definition ge_1e21 (m : positive) (e : Z) : bool :=
  if 0 <=? e then 10 ^ 21 <=? Zpos m * 2 ^ e
  else 10 ^ 21 * 2 ^ (- e) <=? Zpos m.

(** The integer [n] for which [n / 10 - m * 2^e] is closest to zero, the
    larger one when two are equally close. *)
Definition tenths (m : positive) (e : Z) : Z :=
  if 0 <=? e then 10 * Zpos m * 2 ^ e
  else (20 * Zpos m + 2 ^ (- e)) / 2 ^ (- e + 1).

Definition toFixed1 (x : num) : fixed1 :=
  match x with
  | S754_nan => FxNaN
  | S754_infinity s => FxInfinity s
  | S754_zero _ => FxTenths false 0
  | S754_finite s m e =>
      if ge_1e21 m e then FxDefault x else FxTenths s (tenths m e)
  end.

(** [parseFloat] on the texts that [toFixed(1)] produces. *)
Definition parseFloat (t : fixed1) : num :=
  match t with
  | FxNaN => S754_nan
  | FxInfinity s => S754_infinity s
  | FxDefault x => x
  | FxTenths s n =>
      match n with
      | Zpos p => div (S754_finite s p 0) (S754_finite false 10 0)
      | _ => S754_zero s
      end
  end.

End JSNumber.

Import JSNumber.

(** Auxiliary notions for reasoning about exact integer arithmetic. *)

(** [pshl p j] is [p * 2^j] for [0 <= j]. *)
Definition pshl (p : positive) (j : Z) : positive :=
  match j with Zpos q => Pos.iter xO p q | _ => p end.

Definition sign_of (z : Z) : bool := match z with Zneg _ => true | _ => false end.

Local Close Scope Z_scope.

(** ** Rows of the remote tables that the application reads *)

Module Reviewer.
(** A row of [reviewers], with the columns that the application reads. *)
Record t : Type := mk {
  id : string;
  scenario_id : string;
  dimension : string;
  weight : num;
}.
End Reviewer.

Module Result.
(** A row returned by [useRunResults]: [reviewer_id] and the [score]
    field of its [result] payload. *)
Record t : Type := mk {
  reviewer_id : string;
  score : num;
}.
End Result.

(** ** RunResult.jsx: the score aggregation *)

Module RunResult.

(** The value stored in [averageScores] under one dimension. *)
Record entry : Type := mkEntry { total : num; count : num }.

(** Property names that every object literal inherits from
  [Object.prototype].  Reading [acc[k]] for such a [k] on [acc = {}]
  yields the inherited function (or, for [__proto__], the prototype
  object), which is truthy, so the guard [!acc[k]] is false. *)
Definition Object_prototype_keys : list string :=
[ "constructor"; "hasOwnProperty"; "isPrototypeOf"; "propertyIsEnumerable";
  "toLocaleString"; "toString"; "valueOf"; "__proto__";
  "__defineGetter__"; "__defineSetter__"; "__lookupGetter__";
  "__lookupSetter__" ]%string.

Definition inherited (k : string) : bool :=
bool_decide (k ∈ Object_prototype_keys).

Section Aggregate.
(** [useReviewer id] yields the reviewer row, or no data. *)
Variable useReviewer : string -> option Reviewer.t.

(** [reviewer?.dimension || 'Unknown'] *)
Definition dimension_of (result : Result.t) : string :=
  match useReviewer (Result.reviewer_id result) with
  | Some reviewer =>
      if decide (Reviewer.dimension reviewer = "") then "Unknown"
      else Reviewer.dimension reviewer
  | None => "Unknown"
  end%string.

(** One step of the [reduce] callback.  For an inherited property name
    the two compound assignments write [total] and [count] on the
    inherited object and leave [acc] without an own property of that
    name; otherwise the own property is created when missing and both
    fields are updated. *)
Definition reducer (acc : gmap string entry) (result : Result.t)
  : gmap string entry :=
  let dimension := dimension_of result in
  if inherited dimension then acc
  else
    let acc :=
      match acc !! dimension with
      | Some _ => acc
      | None => <[dimension := mkEntry zero zero]> acc
      end in
    let acc :=
      alter (fun e => mkEntry (add (total e) (Result.score result)) (count e))
            dimension acc in
    alter (fun e => mkEntry (total e) (add (count e) one)) dimension acc.

(** [results.reduce(..., {})] *)
Definition averageScores (results : list Result.t) : gmap string entry :=
  foldl reducer ∅ results.

(** [parseFloat((total / count).toFixed(1))] *)
Definition averageScore (e : entry) : num :=
  parseFloat (toFixed1 (div (total e) (count e))).

(** [Object.entries(averageScores).map(...)]: the own properties of
    [averageScores], each turned into its rounded mean.  The array is
    represented by the mapping from [dimension] to [averageScore]; the
    enumeration order of the properties is not represented. *)
Definition scoreData (results : list Result.t) : gmap string num :=
  averageScore <$> averageScores results.

(** The scores recorded under dimension [d], in input order. *)
Definition scores_of (d : string) (results : list Result.t) : list num :=
  Result.score <$> filter (fun r => dimension_of r = d) results.

(** Left-to-right sum starting from [0], and the count obtained by
    adding [1] once per score. *)
Definition sum (l : list num) : num := foldl add zero l.
Definition tally (l : list num) : num := foldl (fun c _ => add c one) zero l.

End Aggregate.

End RunResult.

Import RunResult.

Local Open Scope Z_scope.

(** Exact sums of integer scores, and the entry built from the scores of
    one dimension. *)
Definition zsum (zs : list Z) : Z := foldr Z.add 0 zs.
Definition zabs_sum (zs : list Z) : Z := foldr (fun z a => Z.abs z + a) 0 zs.

Definition entry_of (l : list num) : option entry :=
  match l with
  | [] => None
  | _ => Some (mkEntry (sum l) (tally l))
  end.

Local Close Scope Z_scope.

(** ** JavaScript values and exceptions *)

Module JS.

(** Values that cross the boundary with collaborators as parsed JSON,
    and the built-in methods that a property read on such a value can
    yield. *)
#[warnings="-register-all"] Inductive value : Type :=
| Undefined
| Null
| Bool (b : bool)
| Number (n : num)
| String (s : string)
| Array (items : list value)
| Object (fields : list (string * value))
| Builtin (name : string).

(** ToBoolean. *)
Definition truthy (v : value) : bool :=
  match v with
  | Undefined | Null => false
  | Bool b => b
  | Number n => JSNumber.truthy n
  | String s => negb (bool_decide (s = ""%string))
  | Array _ | Object _ | Builtin _ => true
  end.

Inductive exn : Type :=
| TypeError (message : string)
| SyntaxError (message : string)
| Error (message : string).

Fixpoint assoc (k : string) (fields : list (string * value)) : value :=
  match fields with
  | [] => Undefined
  | (k', v) :: rest => if decide (k' = k) then v else assoc k rest
  end.

(** [v.k] for the two property names that the handlers read, [link] and
    [GPT_ENGINEER_TEST_TOKEN]: a [TypeError] on [undefined] and [null];
    the own property of an object; on a string, [link] is the method
    inherited from [String.prototype]; [undefined] otherwise. *)
Definition get (v : value) (k : string) : exn + value :=
  match v with
  | Undefined => inl (TypeError ("Cannot read properties of undefined (reading '" +:+ k +:+ "')"))
  | Null => inl (TypeError ("Cannot read properties of null (reading '" +:+ k +:+ "')"))
  | Object fields => inr (assoc k fields)
  | String _ =>
      if decide (k = "link"%string) then inr (Builtin "String.prototype.link")
      else inr Undefined
  | _ => inr Undefined
  end.

End JS.

(** ** Rows and props of the orchestration *)

Module Scenario.
(** An element of [scenarios]: the columns of [benchmark_scenarios] that
    the handlers read, and the [reviewers] property that the page iterates
    over.  The table has no such column, so the rows that
    [useBenchmarkScenarios] loads with [select('*')] have [reviewers]
    undefined, which is [None]. *)
Record t : Type := mk {
  id : string;
  name : string;
  prompt : string;
  llm_temperature : num;
  reviewers : option (list Reviewer.t);
}.
End Scenario.

Module Run.
(** A row of [runs]: the inserted columns and the server-assigned [id].
    [project_id] and [link] are whatever values the handler computed;
    [state] is absent when the handler does not set it. *)
Record t : Type := mk {
  id : string;
  scenario_id : string;
  system_version : string;
  project_id : option string;
  user_id : string;
  link : JS.value;
  state : option string;
}.
End Run.

(** One element of the event list returned by the impersonation client:
    its [type] and [data?.id]. *)
Record ImpersonationEvent : Type := mkEvent {
  event_type : string;
  event_data_id : option string;
}.

Module StoredResult.
(** A row of [results] as written by the handler: the run and reviewer it
    refers to and the payload
    [{ impersonation_results, system_version }]. *)
Record t : Type := mk {
  id : string;
  run_id : string;
  reviewer_id : string;
  impersonation_results : list ImpersonationEvent;
  system_version : string;
}.
End StoredResult.

(** What [impersonateUser] resolves to: the flat record
    [{ projectId, initialRequest, messages }] or a list of events. *)
Inductive Outcome : Type :=
| Flat (projectId : string) (initialRequest : JS.value) (messages : JS.value)
| Events (events : list ImpersonationEvent).

(** [const { projectId } = outcome]: [undefined] on a list of events. *)
Definition outcome_projectId (outcome : Outcome) : option string :=
  match outcome with
  | Flat projectId _ _ => Some projectId
  | Events _ => None
  end.

(** A [fetch] response: [ok], [statusText] and what [json()] resolves to. *)
Record Response : Type := mkResponse {
  ok : bool;
  statusText : string;
  json : JS.exn + JS.value;
}.

(** [{ data, error }] of the insert into [runs] followed by
    [.select().single()]: the new row's id, or an error message. *)
Inductive InsertReply : Type :=
| InsertOk (new_id : string)
| InsertError (message : string).

(** [{ data, error }] of [rpc('start_paused_run', ...)]. *)
Inductive RpcReply : Type :=
| RpcData (startedRun : JS.value)
| RpcError (message : string).

(** Calls issued to collaborators, each with its arguments.  The
    [Authorization] header [Bearer <token>] is represented by the token. *)
Inductive Call : Type :=
| CallImpersonate (prompt systemVersion : string) (temperature : option num)
| CallFetch (url : string) (bearer : JS.value)
| CallInsertRun (scenario_id system_version : string) (project_id : option string)
    (user_id : string) (link : JS.value) (state : option string)
| CallStartPausedRun (run_id : string)
| CallInsertResult (run_id reviewer_id : string).

Inductive Toast : Type :=
| ToastError (text : string)
| ToastSuccess (text : string)
| ToastWarning (text : string).

(** The state that the handlers act on.  Lists grow at their end. *)
Record World : Type := mkWorld {
  runs : list Run.t;
  results : list StoredResult.t;
  calls : list Call;
  toasts : list Toast;
  console : list (string * JS.exn);
  navigations : list string;
  isRunning : bool;
}.

(** The collaborators.  Each answer is a function of the calls issued so
    far, the last of which is the call being answered.  [JSON_parse]
    yields [None] where [JSON.parse] throws. *)
Record Env : Type := mkEnv {
  impersonateUser : list Call -> JS.exn + Outcome;
  fetch : list Call -> JS.exn + Response;
  runs_insert : list Call -> InsertReply;
  start_paused_run : list Call -> RpcReply;
  addRun_mutateAsync : list Call -> JS.exn + string;
  addResult_mutateAsync : list Call -> JS.exn + string;
  JSON_parse : string -> option JS.value;
}.

(** ** Handlers as state-passing computations that may throw *)

Module Effects.

Definition M (A : Type) : Type := World -> (JS.exn + A) * World.

Definition ret {A} (x : A) : M A := fun w => (inr x, w).

Definition throw {A} (e : JS.exn) : M A := fun w => (inl e, w).

Definition bind {A B} (m : M A) (k : A -> M B) : M B :=
  fun w =>
    match m w with
    | (inl e, w') => (inl e, w')
    | (inr x, w') => k x w'
    end.

(** [try { m } catch (error) { handler error }] *)
Definition try_catch (m : M unit) (handler : JS.exn -> M unit) : M unit :=
  fun w =>
    match m w with
    | (inl e, w') => handler e w'
    | (inr x, w') => (inr x, w')
    end.

(** [try { m } catch (error) { handler error } finally { final }] *)
Definition try_catch_finally (m : M unit) (handler : JS.exn -> M unit)
    (final : M unit) : M unit :=
  fun w =>
    match try_catch m handler w with
    | (inl e, w') =>
        match final w' with
        | (inl e', w'') => (inl e', w'')
        | (inr _, w'') => (inl e, w'')
        end
    | (inr _, w') => final w'
    end.

(** [for (const x of l) { body x }] *)
Fixpoint for_of {A} (l : list A) (body : A -> M unit) : M unit :=
  match l with
  | [] => ret tt
  | x :: l' => bind (body x) (fun _ => for_of l' body)
  end.

(** Lifting of a pure partial result. *)
Definition lift {A} (r : JS.exn + A) : M A :=
  match r with
  | inl e => throw e
  | inr x => ret x
  end.

(** World updates. *)
Definition add_toast (t : Toast) (w : World) : World :=
  mkWorld (runs w) (results w) (calls w) (toasts w ++ [t])
          (console w) (navigations w) (isRunning w).

Definition add_console (label : string) (e : JS.exn) (w : World) : World :=
  mkWorld (runs w) (results w) (calls w) (toasts w)
          (console w ++ [(label, e)]) (navigations w) (isRunning w).

Definition set_running (b : bool) (w : World) : World :=
  mkWorld (runs w) (results w) (calls w) (toasts w)
          (console w) (navigations w) b.

Definition add_navigation (path : string) (w : World) : World :=
  mkWorld (runs w) (results w) (calls w) (toasts w)
          (console w) (navigations w ++ [path]) (isRunning w).

Definition record_call (c : Call) (w : World) : World :=
  mkWorld (runs w) (results w) (calls w ++ [c]) (toasts w)
          (console w) (navigations w) (isRunning w).

Definition add_run (r : Run.t) (w : World) : World :=
  mkWorld (runs w ++ [r]) (results w) (calls w) (toasts w)
          (console w) (navigations w) (isRunning w).

Definition add_result (r : StoredResult.t) (w : World) : World :=
  mkWorld (runs w) (results w ++ [r]) (calls w) (toasts w)
          (console w) (navigations w) (isRunning w).

Definition toast (t : Toast) : M unit := fun w => (inr tt, add_toast t w).

Definition console_error (label : string) (e : JS.exn) : M unit :=
  fun w => (inr tt, add_console label e w).

Definition setIsRunning (b : bool) : M unit := fun w => (inr tt, set_running b w).

Definition navigate (path : string) : M unit :=
  fun w => (inr tt, add_navigation path w).

(** Issue a call: record it, then ask the collaborator. *)
Definition call {A} (c : Call) (answer : list Call -> A) : M A :=
  fun w => let w' := record_call c w in (inr (answer (calls w')), w').

Definition store_run (r : Run.t) : M unit := fun w => (inr tt, add_run r w).

Definition store_result (r : StoredResult.t) : M unit :=
  fun w => (inr tt, add_result r w).

End Effects.

Import Effects.

Declare Scope js_scope.
Delimit Scope js_scope with js.
Notation "x <- m ;; k" := (bind m (fun x => k))
  (at level 100, m at next level, right associativity) : js_scope.
Notation "m ;;; k" := (bind m (fun _ => k))
  (at level 100, right associativity) : js_scope.

(** Session of the signed-in user: [session.user.id]. *)
Record Session : Type := mkSession { session_user_id : string }.

(** A row of [user_secrets]. *)
Record UserSecret : Type := mkSecret { secret : string }.

Section Handlers.
Variable E : Env.

(** [scenarios.find((s) => s.id === scenarioId)] *)
Definition find_scenario (scenarios : list Scenario.t) (scenarioId : string)
  : option Scenario.t :=
  List.find (fun s => bool_decide (Scenario.id s = scenarioId)) scenarios.

(** Reading a property of [scenario], which is [undefined] on a miss. *)
Definition scenario_prop (scenario : option Scenario.t) (k : string) : M Scenario.t :=
  match scenario with
  | Some s => ret s
  | None => throw (JS.TypeError ("Cannot read properties of undefined (reading '" +:+ k +:+ "')"))
  end.

(** The iterable of [for (const reviewer of scenario.reviewers)]. *)
Definition scenario_reviewers (scenario : Scenario.t) : M (list Reviewer.t) :=
  match Scenario.reviewers scenario with
  | Some reviewers => ret reviewers
  | None => throw (JS.TypeError "scenario.reviewers is not iterable")
  end.

(** [session.user.id] *)
Definition session_user (session : option Session) : M string :=
  match session with
  | Some s => ret (session_user_id s)
  | None => throw (JS.TypeError "Cannot read properties of null (reading 'user')")
  end.

(** The awaited collaborator calls. *)
Definition await_impersonateUser (prompt systemVersion : string)
    (temperature : option num) : M Outcome :=
  bind (call (CallImpersonate prompt systemVersion temperature) (impersonateUser E)) lift.

Definition await_fetch (url : string) (bearer : JS.value) : M Response :=
  bind (call (CallFetch url bearer) (fetch E)) lift.

(** The insert into [runs]; on success the row, with the id assigned by
    the server, is in the table. *)
Definition await_runs_insert (scenario_id system_version : string)
    (project_id : option string) (user_id : string) (link : JS.value)
    (state : option string) : M InsertReply :=
  bind (call (CallInsertRun scenario_id system_version project_id user_id link state)
             (runs_insert E))
       (fun reply =>
          match reply with
          | InsertOk new_id =>
              bind (store_run (Run.mk new_id scenario_id system_version project_id
                                      user_id link state))
                   (fun _ => ret reply)
          | InsertError _ => ret reply
          end).

Definition await_start_paused_run (run_id : string) : M RpcReply :=
  call (CallStartPausedRun run_id) (start_paused_run E).

(** Modelled from the spec: [useAddRun] is imported from the Supabase
    integration but not defined in the sources at hand.  Following the
    gateway operation [insert(table, row) -> Row] (server-assigned id),
    [addRun.mutateAsync(row)] resolves to the stored row, or rejects and
    stores nothing. *)
Definition await_addRun (scenario_id system_version : string)
    (project_id : option string) (user_id : string) : M Run.t :=
  bind (call (CallInsertRun scenario_id system_version project_id user_id
                            JS.Undefined None)
             (addRun_mutateAsync E))
       (fun r =>
          match r with
          | inl e => throw e
          | inr new_id =>
              let row := Run.mk new_id scenario_id system_version project_id
                                user_id JS.Undefined None in
              bind (store_run row) (fun _ => ret row)
          end).

(** Modelled from the spec: [useAddResult] is not defined in the sources
    at hand either; [addResult.mutateAsync(row)] stores the row and
    resolves, or rejects and stores nothing. *)
Definition await_addResult (run_id reviewer_id : string)
    (impersonation_results : list ImpersonationEvent) (system_version : string)
  : M unit :=
  bind (call (CallInsertResult run_id reviewer_id) (addResult_mutateAsync E))
       (fun r =>
          match r with
          | inl e => throw e
          | inr new_id =>
              store_result (StoredResult.mk new_id run_id reviewer_id
                                            impersonation_results system_version)
          end).

End Handlers.

(** ** components/benchmark/BenchmarkRunner.jsx *)

Module BenchmarkRunner.

Record Props : Type := mkProps {
  selectedScenarios : list string;
  systemVersion : string;
  scenarios : list Scenario.t;
  session : option Session;
  userSecrets : option (list UserSecret);
}.

Section Component.
Variable E : Env.
Variable props : Props.

Local Open Scope js_scope.

(** First part of the loop body: impersonation, project lookup and the
    insert of the paused run.  Yields the scenario and the new run's id. *)
Definition create_run (gptEngineerTestToken : JS.value) (scenarioId : string)
  : M (Scenario.t * string) :=
  let scenario := find_scenario (scenarios props) scenarioId in
  scenario <- scenario_prop scenario "prompt" ;;
  outcome <- await_impersonateUser E (Scenario.prompt scenario) (systemVersion props)
               (Some (Scenario.llm_temperature scenario)) ;;
  let projectId := outcome_projectId outcome in
  projectResponse <-
    await_fetch E (systemVersion props +:+ "/projects/" +:+ default "undefined"%string projectId)
                gptEngineerTestToken ;;
  if negb (ok projectResponse)
  then throw (JS.Error ("Failed to fetch project details: " +:+ statusText projectResponse))
  else
    projectData <- lift (json projectResponse) ;;
    projectLink <- lift (JS.get projectData "link") ;;
    user_id <- session_user (session props) ;;
    reply <- await_runs_insert E scenarioId (systemVersion props) projectId user_id
               projectLink (Some "paused"%string) ;;
    match reply with
    | InsertError message => throw (JS.Error ("Failed to create run: " +:+ message))
    | InsertOk newRun_id => ret (scenario, newRun_id)
    end.

(** Second part of the loop body: starting the paused run and reporting. *)
Definition start_run (scenario : Scenario.t) (newRun_id : string) : M unit :=
  started <- await_start_paused_run E newRun_id ;;
  match started with
  | RpcError message => throw (JS.Error ("Failed to start run: " +:+ message))
  | RpcData startedRun =>
      if JS.truthy startedRun
      then toast (ToastSuccess ("Benchmark started for scenario: " +:+ Scenario.name scenario))
      else toast (ToastWarning ("Benchmark created but not started for scenario: "
                                +:+ Scenario.name scenario))
  end.

(** The body of the loop over [selectedScenarios]. *)
Definition scenario_body (gptEngineerTestToken : JS.value) (scenarioId : string)
  : M unit :=
  created <- create_run gptEngineerTestToken scenarioId ;;
  start_run (fst created) (snd created).

(** The [try] block. *)
Definition batch (gptEngineerTestToken : JS.value) : M unit :=
  for_of (selectedScenarios props) (scenario_body gptEngineerTestToken) ;;;
  toast (ToastSuccess "All benchmarks started successfully!").

(** The [catch] block. *)
Definition on_error (error : JS.exn) : M unit :=
  console_error "Error starting benchmark:" error ;;;
  toast (ToastError "An error occurred while starting the benchmark. Please try again.") ;;;
  setIsRunning false.

Definition handleStartBenchmark : M unit :=
  match selectedScenarios props with
  | [] => toast (ToastError "Please select at least one scenario to run.")
  | _ :: _ =>
      match userSecrets props with
      | None | Some [] =>
          toast (ToastError "No user secrets found. Please set up your GPT Engineer test token.")
      | Some (first :: _) =>
          secrets <- lift (match JSON_parse E (secret first) with
                           | Some v => inr v
                           | None => inl (JS.SyntaxError "JSON.parse")
                           end) ;;
          gptEngineerTestToken <- lift (JS.get secrets "GPT_ENGINEER_TEST_TOKEN") ;;
          if negb (JS.truthy gptEngineerTestToken)
          then toast (ToastError "GPT Engineer test token not found. Please set it up in your secrets.")
          else
            setIsRunning true ;;;
            try_catch (batch gptEngineerTestToken) on_error
      end
  end.

(** The button: [disabled={isRunning}]; a disabled button does not run
    its [onClick]. *)
Definition Button_disabled (w : World) : bool := isRunning w.

Definition Button_label (w : World) : string :=
  if isRunning w then "Running Benchmark..." else "Start Benchmark".

Definition onClick : M unit :=
  fun w => if Button_disabled w then (inr tt, w) else handleStartBenchmark w.

End Component.
End BenchmarkRunner.

(** ** pages/StartBenchmark.jsx *)

Module StartBenchmark.

(** The component state and hook results that the handler closes over.
    The page does not read [user_secrets].  (The dependency array given to
    [useCallback] names [addBenchmarkResult], which the module does not
    declare; the embedding is of the handler's body.) *)
Record State : Type := mkState {
  selectedScenarios : list string;
  systemVersion : string;
  scenarios : list Scenario.t;
  session : option Session;
}.

(** [impersonationResults.find(r => r.type === 'project_created')?.data?.id] *)
Definition project_created_id (impersonationResults : list ImpersonationEvent)
  : option string :=
  match List.find (fun r => bool_decide (event_type r = "project_created"%string))
                  impersonationResults with
  | Some r => event_data_id r
  | None => None
  end.

Section Component.
Variable E : Env.
Variable st : State.

Local Open Scope js_scope.

Definition scenario_body (scenarioId : string) : M unit :=
  let scenario := find_scenario (scenarios st) scenarioId in
  scenario <- scenario_prop scenario "prompt" ;;
  outcome <- await_impersonateUser E (Scenario.prompt scenario) (systemVersion st) None ;;
  impersonationResults <-
    match outcome with
    | Events events => ret events
    | Flat _ _ _ => throw (JS.TypeError "impersonationResults.find is not a function")
    end ;;
  match project_created_id impersonationResults with
  | None | Some ""%string =>
      throw (JS.Error "Failed to get project ID from impersonation results")
  | Some projectId =>
      user_id <- session_user (session st) ;;
      runData <- await_addRun E scenarioId (systemVersion st) (Some projectId) user_id ;;
      reviewers <- scenario_reviewers scenario ;;
      for_of reviewers
             (fun reviewer =>
                await_addResult E (Run.id runData) (Reviewer.id reviewer)
                                impersonationResults (systemVersion st)) ;;;
      toast (ToastSuccess ("Benchmark completed for scenario: " +:+ Scenario.name scenario))
  end.

Definition batch : M unit :=
  for_of (selectedScenarios st) scenario_body ;;;
  toast (ToastSuccess "All benchmarks completed successfully!") ;;;
  navigate "/".

Definition on_error (error : JS.exn) : M unit :=
  console_error "Error running benchmark:" error ;;;
  toast (ToastError "An error occurred while running the benchmark. Please try again.").

Definition handleStartBenchmark : M unit :=
  match selectedScenarios st with
  | [] => toast (ToastError "Please select at least one scenario to run.")
  | _ :: _ =>
      setIsRunning true ;;;
      try_catch_finally batch on_error (setIsRunning false)
  end.

End Component.
End StartBenchmark.

(** ** Notions used to state the properties *)

(** The world right after [setIsRunning(true)]. *)
Definition started (w : World) : World := set_running true w.

(** The token that the checks of [BenchmarkRunner] accept, if any. *)
Definition resolve_token (E : Env) (userSecrets : option (list UserSecret))
  : option JS.value :=
  match userSecrets with
  | Some (first :: _) =>
      match JSON_parse E (secret first) with
      | Some secrets =>
          match JS.get secrets "GPT_ENGINEER_TEST_TOKEN" with
          | inr token => if JS.truthy token then Some token else None
          | inl _ => None
          end
      | None => None
      end
  | _ => None
  end.

(** Rows are only ever added, at the end of each table. *)
Definition grows (w w' : World) : Prop :=
  runs w `prefix_of` runs w' /\ results w `prefix_of` results w'.

(** The running flag is the same in both worlds. *)
Definition same_flag (w w' : World) : Prop := isRunning w = isRunning w'.

(** A computation relates every world to the world it leaves behind. *)
Definition preserves {A} (R : World -> World -> Prop) (m : M A) : Prop :=
  forall w, R w (snd (m w)).

(** Collaborators that always succeed, for each handler. *)
Definition runner_collaborators_succeed (E : Env) : Prop :=
  (forall h, exists projectId initialRequest messages,
      impersonateUser E h = inr (Flat projectId initialRequest messages)) /\
  (forall h, exists statusText fields,
      fetch E h = inr (mkResponse true statusText (inr (JS.Object fields)))) /\
  (forall h, exists new_id, runs_insert E h = InsertOk new_id) /\
  (forall h, exists startedRun, start_paused_run E h = RpcData startedRun).

Definition page_collaborators_succeed (E : Env) : Prop :=
  (forall h, exists events projectId,
      impersonateUser E h = inr (Events events) /\
      StartBenchmark.project_created_id events = Some projectId /\
      projectId <> ""%string) /\
  (forall h, exists new_id, addRun_mutateAsync E h = inr new_id) /\
  (forall h, exists new_id, addResult_mutateAsync E h = inr new_id).

(** The reviewers that the scenario with this id carries, if any. *)
Definition reviewers_of (scenarios : list Scenario.t) (scenarioId : string)
  : list Reviewer.t :=
  match find_scenario scenarios scenarioId with
  | Some scenario => default [] (Scenario.reviewers scenario)
  | None => []
  end.

(** One Run per selected scenario, in input order, and one Result per
    Reviewer of each scenario, referencing that Run and that Reviewer. *)
Definition one_run_and_results_each (scenarios : list Scenario.t)
    (selected : list string) (w w' : World) : Prop :=
  exists new_runs new_results,
    runs w' = runs w ++ new_runs /\
    results w' = results w ++ new_results /\
    Run.scenario_id <$> new_runs = selected /\
    (fun r => (StoredResult.run_id r, StoredResult.reviewer_id r)) <$> new_results =
    new_runs ≫= (fun run =>
      (fun reviewer => (Run.id run, Reviewer.id reviewer)) <$>
        reviewers_of scenarios (Run.scenario_id run)).

(** One paused Run per selected scenario, in input order, and no Result. *)
Definition one_paused_run_each (selected : list string) (w w' : World) : Prop :=
  exists new_runs,
    runs w' = runs w ++ new_runs /\
    results w' = results w /\
    Run.scenario_id <$> new_runs = selected /\
    Forall (fun run => Run.state run = Some "paused"%string) new_runs.

(** The two notifications that report a missing credential. *)
Definition configuration_errors : list string :=
  [ "No user secrets found. Please set up your GPT Engineer test token.";
    "GPT Engineer test token not found. Please set it up in your secrets." ]%string.

(** The exception, if any, raised while the token is read from the first
    user secret: by [JSON.parse] on a text that is not JSON, or by the
    property read on a parsed [null]. *)
Definition credential_read_error (E : Env) (userSecrets : option (list UserSecret))
  : option JS.exn :=
  match userSecrets with
  | Some (first :: _) =>
      match JSON_parse E (secret first) with
      | None => Some (JS.SyntaxError "JSON.parse")
      | Some secrets =>
          match JS.get secrets "GPT_ENGINEER_TEST_TOKEN" with
          | inl e => Some e
          | inr _ => None
          end
      end
  | _ => None
  end.

(** The configuration error for user secrets that hold no usable token:
    the first one when there is no row, the second one otherwise. *)
Definition configuration_error (userSecrets : option (list UserSecret)) : string :=
  match userSecrets with
  | None | Some [] => "No user secrets found. Please set up your GPT Engineer test token."
  | Some (_ :: _) => "GPT Engineer test token not found. Please set it up in your secrets."
  end.

(** ** Test doubles *)

Definition last_scenario (h : list Call) : string :=
  match last h with
  | Some (CallInsertRun scenario_id _ _ _ _ _) => scenario_id
  | _ => ""%string
  end.

Definition last_reviewer (h : list Call) : string :=
  match last h with
  | Some (CallInsertResult run_id reviewer_id) => run_id +:+ "/" +:+ reviewer_id
  | _ => ""%string
  end.

(** Every collaborator succeeds; ids are derived from the request. *)
Definition stub_env : Env :=
  {| impersonateUser := fun _ => inr (Flat "p1" JS.Undefined JS.Undefined);
     fetch := fun _ => inr (mkResponse true "OK"
                              (inr (JS.Object [("link"%string, JS.String "https://example.test/p1")])));
     runs_insert := fun h => InsertOk ("run-" +:+ last_scenario h);
     start_paused_run := fun _ => RpcData (JS.Bool true);
     addRun_mutateAsync := fun h => inr ("run-" +:+ last_scenario h);
     addResult_mutateAsync := fun h => inr ("result-" +:+ last_reviewer h);
     JSON_parse := fun s =>
       if decide (s = "{}"%string) then Some (JS.Object [])
       else if decide (s = "null"%string) then Some JS.Null
       else if decide (s = "token"%string)
       then Some (JS.Object [("GPT_ENGINEER_TEST_TOKEN"%string, JS.String "t0k3n")])
       else None |}.

(** As [stub_env], with the impersonation client answering with events. *)
Definition stub_env_events : Env :=
  {| impersonateUser := fun _ =>
       inr (Events [mkEvent "message" None; mkEvent "project_created" (Some "p1"%string)]);
     fetch := fetch stub_env;
     runs_insert := runs_insert stub_env;
     start_paused_run := start_paused_run stub_env;
     addRun_mutateAsync := addRun_mutateAsync stub_env;
     addResult_mutateAsync := addResult_mutateAsync stub_env;
     JSON_parse := JSON_parse stub_env |}.

Definition empty_world : World := mkWorld [] [] [] [] [] [] false.

Definition clarity_reviewer : Reviewer.t := Reviewer.mk "r1" "s1" "clarity" one.
Definition safety_reviewer : Reviewer.t := Reviewer.mk "r2" "s1" "safety" one.

Definition scenario_s1 : Scenario.t :=
  Scenario.mk "s1" "Todo app" "Build a todo app" (of_decimal 7 1)
              (Some [clarity_reviewer; safety_reviewer]).
Definition scenario_s2 : Scenario.t :=
  Scenario.mk "s2" "Blog" "Build a blog" (of_decimal 7 1) (Some []).

(** As [stub_env], but the target system answers 404 once more than four
    calls have been issued, that is, from the second scenario on. *)
Definition stub_env_fetch_fails_later : Env :=
  {| impersonateUser := impersonateUser stub_env;
     fetch := fun h =>
       if decide (length h <= 4)%nat then fetch stub_env h
       else inr (mkResponse false "Not Found" (inl (JS.SyntaxError "Unexpected token")));
     runs_insert := runs_insert stub_env;
     start_paused_run := start_paused_run stub_env;
     addRun_mutateAsync := addRun_mutateAsync stub_env;
     addResult_mutateAsync := addResult_mutateAsync stub_env;
     JSON_parse := JSON_parse stub_env |}.

(** As [stub_env], but the procedure reports that nothing was started. *)
Definition stub_env_not_started : Env :=
  {| impersonateUser := impersonateUser stub_env;
     fetch := fetch stub_env;
     runs_insert := runs_insert stub_env;
     start_paused_run := fun _ => RpcData JS.Null;
     addRun_mutateAsync := addRun_mutateAsync stub_env;
     addResult_mutateAsync := addResult_mutateAsync stub_env;
     JSON_parse := JSON_parse stub_env |}.

Definition runner_props : BenchmarkRunner.Props :=
  BenchmarkRunner.mkProps ["s1"; "s2"]%string "http://localhost:8000"
    [scenario_s1; scenario_s2] (Some (mkSession "u1")) (Some [mkSecret "token"]).

Definition page_state : StartBenchmark.State :=
  StartBenchmark.mkState ["s1"; "s2"]%string "http://localhost:8000"
    [scenario_s1; scenario_s2] (Some (mkSession "u1")).

(** As [runner_props], with a secret whose text is not JSON. *)
Definition runner_props_bad_secret : BenchmarkRunner.Props :=
  BenchmarkRunner.mkProps ["s1"; "s2"]%string "http://localhost:8000"
    [scenario_s1; scenario_s2] (Some (mkSession "u1")) (Some [mkSecret "not json"]).

(** The first example scenario as [useBenchmarkScenarios] loads it, and
    the page over it. *)
Definition scenario_row_s1 : Scenario.t :=
  Scenario.mk "s1" "Todo app" "Build a todo app" (of_decimal 7 1) None.

Definition page_state_loaded : StartBenchmark.State :=
  StartBenchmark.mkState ["s1"; "s2"]%string "http://localhost:8000"
    [scenario_row_s1; scenario_s2] (Some (mkSession "u1")).

Definition example_token : JS.value := JS.String "t0k3n".

(** The world after the first scenario of [runner_props] went through. *)
Definition after_first_scenario (E : Env) : World :=
  snd (for_of ["s1"%string] (BenchmarkRunner.scenario_body E runner_props example_token)
              (started empty_world)).

(** The world after the paused run of the first scenario was inserted. *)
Definition after_first_insert (E : Env) : World :=
  snd (BenchmarkRunner.create_run E runner_props example_token "s1" (started empty_world)).

Local Open Scope Z_scope.

(** Example data for the aggregation. *)
Definition example_useReviewer (i : string) : option Reviewer.t :=
  if decide (i = "r1"%string) then Some (Reviewer.mk "r1" "s1" "clarity" one)
  else if decide (i = "r2"%string) then Some (Reviewer.mk "r2" "s1" "safety" one)
  else if decide (i = "r3"%string) then Some (Reviewer.mk "r3" "s1" "constructor" one)
  else None.

Definition scores_5_5_53_81 : list Result.t :=
  [Result.mk "r1" (of_Z 5); Result.mk "r1" (of_Z 5);
   Result.mk "r1" (of_decimal 53 1); Result.mk "r1" (of_decimal 81 1)].

Definition scores_5_5_81_53 : list Result.t :=
  [Result.mk "r1" (of_Z 5); Result.mk "r1" (of_Z 5);
   Result.mk "r1" (of_decimal 81 1); Result.mk "r1" (of_decimal 53 1)].

Definition scores_8_6_10 : list Result.t :=
  [Result.mk "r1" (of_Z 8); Result.mk "r1" (of_Z 6); Result.mk "r2" (of_Z 10)].

Definition scores_10_8_6 : list Result.t :=
  [Result.mk "r2" (of_Z 10); Result.mk "r1" (of_Z 8); Result.mk "r1" (of_Z 6)].

(** Seven scores of [1] and thirteen of [0], all of dimension clarity. *)
Definition scores_seven_in_twenty : list Result.t :=
  replicate 7 (Result.mk "r1" (of_Z 1)) ++ replicate 13 (Result.mk "r1" (of_Z 0)).

(** The integer behind the scores of the examples. *)
Definition example_zscore (r : Result.t) : Z :=
  match Result.score r with
  | S754_finite false m e => Z.shiftl (Zpos m) e
  | _ => 0
  end.

Local Close Scope Z_scope.

(** ** pages/StartBenchmark.jsx: the selection and the system version *)

(** [handleScenarioToggle]: the updater handed to [setSelectedScenarios],
    [prev.includes(id) ? prev.filter(x => x !== id) : [...prev, id]]. *)
Definition handleScenarioToggle (scenarioId : string) (prev : list string)
  : list string :=
  if bool_decide (scenarioId ∈ prev)
  then filter (fun id => id <> scenarioId) prev
  else prev ++ [scenarioId].

(** The selection after a series of clicks on checkboxes, starting from
    the initial state [[]]. *)
Definition selection_after (clicks : list string) : list string :=
  foldl (fun prev scenarioId => handleScenarioToggle scenarioId prev) [] clicks.

(** [import.meta.env.VITE_SYSTEM_VERSION || "http://localhost:8000"]: the
    initial state of [systemVersion].  The variable is [None] when it is
    not set. *)
Definition initial_systemVersion (VITE_SYSTEM_VERSION : option string) : string :=
  match VITE_SYSTEM_VERSION with
  | Some v => if decide (v = ""%string) then "http://localhost:8000"%string else v
  | None => "http://localhost:8000"%string
  end.

(** The values of the [SelectItem]s offered for the system version. *)
Definition SelectItem_values (VITE_SYSTEM_VERSION : option string) : list string :=
  "http://localhost:8000"%string ::
  match VITE_SYSTEM_VERSION with
  | Some v => if decide (v = ""%string) then [] else ["http://" +:+ v]
  | None => []
  end.

(** ** Notions for what a handler adds to the world *)

(** The run ids that [start_paused_run] was called with. *)
Definition started_ids (cs : list Call) : list string :=
  omap (fun c => match c with CallStartPausedRun run_id => Some run_id | _ => None end) cs.

Definition is_error_toast (t : Toast) : bool :=
  match t with ToastError _ => true | _ => false end.

(** The calls that [BenchmarkRunner] may issue: impersonation of a loaded
    scenario's prompt with its temperature, the project lookup under the
    chosen system version carrying the token, the insert of a paused run
    for a loaded scenario and the signed-in user, and the start of a run. *)
Definition runner_call_ok (props : BenchmarkRunner.Props) (token : JS.value)
    (c : Call) : Prop :=
  match c with
  | CallImpersonate prompt systemVersion temperature =>
      systemVersion = BenchmarkRunner.systemVersion props /\
      exists scenario, scenario ∈ BenchmarkRunner.scenarios props /\
                       prompt = Scenario.prompt scenario /\
                       temperature = Some (Scenario.llm_temperature scenario)
  | CallFetch url bearer =>
      bearer = token /\
      exists projectId,
        url = (BenchmarkRunner.systemVersion props +:+ "/projects/" +:+ projectId)%string
  | CallInsertRun scenario_id system_version _ user_id _ state =>
      is_Some (find_scenario (BenchmarkRunner.scenarios props) scenario_id) /\
      system_version = BenchmarkRunner.systemVersion props /\
      BenchmarkRunner.session props = Some (mkSession user_id) /\
      state = Some "paused"%string
  | CallStartPausedRun _ => True
  | CallInsertResult _ _ => False
  end.

Definition runner_row_ok (props : BenchmarkRunner.Props) (row : Run.t) : Prop :=
  is_Some (find_scenario (BenchmarkRunner.scenarios props) (Run.scenario_id row)) /\
  Run.system_version row = BenchmarkRunner.systemVersion props /\
  BenchmarkRunner.session props = Some (mkSession (Run.user_id row)) /\
  Run.state row = Some "paused"%string.

(** What the loop of [BenchmarkRunner] over the scenario ids [sids] has
    added when it ends with [r]: calls, notifications and run rows, and
    nothing else. *)
Definition runner_progress (props : BenchmarkRunner.Props) (token : JS.value)
    (sids : list string) (r : JS.exn + unit) (w w' : World) : Prop :=
  exists cs ts rs,
    calls w' = calls w ++ cs /\
    toasts w' = toasts w ++ ts /\
    runs w' = runs w ++ rs /\
    results w' = results w /\
    navigations w' = navigations w /\
    console w' = console w /\
    isRunning w' = isRunning w /\
    Forall (runner_call_ok props token) cs /\
    Forall (fun t => is_error_toast t = false) ts /\
    Forall (runner_row_ok props) rs /\
    Run.id <$> rs = started_ids cs /\
    Run.scenario_id <$> rs `prefix_of` sids /\
    (r = inr tt -> Run.scenario_id <$> rs = sids).

(** The calls that [StartBenchmark] may issue. *)
Definition page_call_ok (st : StartBenchmark.State) (c : Call) : Prop :=
  match c with
  | CallImpersonate prompt systemVersion temperature =>
      systemVersion = StartBenchmark.systemVersion st /\
      temperature = None /\
      exists scenario, scenario ∈ StartBenchmark.scenarios st /\
                       prompt = Scenario.prompt scenario
  | CallInsertRun scenario_id system_version project_id user_id link state =>
      is_Some (find_scenario (StartBenchmark.scenarios st) scenario_id) /\
      system_version = StartBenchmark.systemVersion st /\
      StartBenchmark.session st = Some (mkSession user_id) /\
      (exists projectId, project_id = Some projectId /\ projectId <> ""%string) /\
      link = JS.Undefined /\ state = None
  | CallInsertResult _ _ => True
  | CallFetch _ _ | CallStartPausedRun _ => False
  end.

(** The run and reviewer that a stored result refers to. *)
Definition result_refs (r : StoredResult.t) : string * string :=
  (StoredResult.run_id r, StoredResult.reviewer_id r).

(** The references expected for a list of runs: for each run, in order,
    one per reviewer of its scenario. *)
Definition expected_refs (scenarios : list Scenario.t) (rs : list Run.t)
  : list (string * string) :=
  rs ≫= (fun run =>
    (fun reviewer => (Run.id run, Reviewer.id reviewer)) <$>
      reviewers_of scenarios (Run.scenario_id run)).

(** What the loop of [StartBenchmark] over [sids] has added when it ends
    with [r]. *)
Definition page_progress (st : StartBenchmark.State) (sids : list string)
    (r : JS.exn + unit) (w w' : World) : Prop :=
  exists cs ts rs res,
    calls w' = calls w ++ cs /\
    toasts w' = toasts w ++ ts /\
    runs w' = runs w ++ rs /\
    results w' = results w ++ res /\
    navigations w' = navigations w /\
    console w' = console w /\
    isRunning w' = isRunning w /\
    Forall (page_call_ok st) cs /\
    Forall (fun t => is_error_toast t = false) ts /\
    Run.scenario_id <$> rs `prefix_of` sids /\
    (r = inr tt -> Run.scenario_id <$> rs = sids) /\
    result_refs <$> res `prefix_of` expected_refs (StartBenchmark.scenarios st) rs /\
    (r = inr tt -> result_refs <$> res = expected_refs (StartBenchmark.scenarios st) rs).

(** The texts of the error notifications of [BenchmarkRunner]. *)
Definition runner_error_texts : list string :=
  [ "Please select at least one scenario to run.";
    "No user secrets found. Please set up your GPT Engineer test token.";
    "GPT Engineer test token not found. Please set it up in your secrets.";
    "An error occurred while starting the benchmark. Please try again." ]%string.

(** * Part II: properties *)

Local Open Scope Z_scope.

(** ** Numbers *)

Example of_Z_8 : of_Z 8 = S754_finite false (2 ^ 52) (-49).
Proof. reflexivity. Qed.

Example tenth_plus_two_tenths :
  add (of_decimal 1 1) (of_decimal 2 1) <> of_decimal 3 1.
Proof. vm_compute. discriminate. Qed.

Example quarter_toFixed : toFixed1 (of_decimal 25 2) = FxTenths false 3.
Proof. reflexivity. Qed.

Example point35_toFixed : toFixed1 (of_decimal 35 2) = FxTenths false 3.
Proof. reflexivity. Qed.

Lemma iter_xO_val p q : Zpos (Pos.iter xO p q) = Zpos p * 2 ^ Zpos q.
Proof.
  induction q as [|q IH] using Pos.peano_ind.
  - simpl. lia.
  - rewrite Pos.iter_succ, Pos2Z.inj_xO, IH, Pos2Z.inj_succ, Z.pow_succ_r by lia. lia.
Qed.

Lemma pshl_val p j : 0 <= j -> Zpos (pshl p j) = Zpos p * 2 ^ j.
Proof.
  destruct j as [|q|q]; intros Hj; simpl pshl; [lia | apply iter_xO_val | lia].
Qed.

Lemma iter_xO_digits p q :
  digits2_pos (Pos.iter xO p q) = (digits2_pos p + q)%positive.
Proof.
  induction q as [|q IH] using Pos.peano_ind.
  - simpl. lia.
  - rewrite Pos.iter_succ. simpl. rewrite IH. lia.
Qed.

Lemma pshl_digits p j :
  0 <= j -> Zpos (digits2_pos (pshl p j)) = Zpos (digits2_pos p) + j.
Proof.
  destruct j as [|q|q]; intros Hj; simpl pshl; [lia | | lia].
  rewrite iter_xO_digits. lia.
Qed.

Lemma digits2_pos_lower p : 2 ^ (Zpos (digits2_pos p) - 1) <= Zpos p.
Proof.
  induction p as [p IH|p IH|]; simpl digits2_pos.
  - rewrite Pos2Z.inj_succ.
    replace (Z.succ (Zpos (digits2_pos p)) - 1) with (Z.succ (Zpos (digits2_pos p) - 1)) by lia.
    rewrite Z.pow_succ_r by lia. lia.
  - rewrite Pos2Z.inj_succ.
    replace (Z.succ (Zpos (digits2_pos p)) - 1) with (Z.succ (Zpos (digits2_pos p) - 1)) by lia.
    rewrite Z.pow_succ_r by lia. lia.
  - simpl. lia.
Qed.

Lemma digits2_pos_le_53 p : Zpos p < 2 ^ 53 -> Zpos (digits2_pos p) <= 53.
Proof.
  intros Hp. pose proof (digits2_pos_lower p) as Hl.
  destruct (Z_le_gt_dec (Zpos (digits2_pos p)) 53) as [|Hgt]; [assumption|].
  exfalso.
  assert (2 ^ 53 <= 2 ^ (Zpos (digits2_pos p) - 1)) by (apply Z.pow_le_mono_r; lia).
  lia.
Qed.

Lemma iter_pos_iter {A} (f : A -> A) p x : SpecFloat.iter_pos f p x = Pos.iter f x p.
Proof.
  revert x. induction p as [p IH|p IH|]; intros x; simpl.
  - rewrite !IH, !Pos.iter_swap. reflexivity.
  - rewrite !IH. reflexivity.
  - reflexivity.
Qed.

Lemma shl_align_lt m e e' :
  e' < e -> shl_align m e e' = (pshl m (e - e'), e').
Proof.
  intros H. unfold shl_align.
  destruct (e' - e) as [|q|q] eqn:E; try lia.
  replace (e - e') with (Zpos q) by lia. reflexivity.
Qed.

Lemma shl_align_ge m e e' : e <= e' -> shl_align m e e' = (m, e).
Proof.
  intros H. unfold shl_align. destruct (e' - e) as [|q|q] eqn:E; try lia; reflexivity.
Qed.

Lemma shr_pos r e n :
  0 < n -> shr r e n = (Pos.iter shr_1 r (Z.to_pos n), e + n).
Proof.
  intros H. unfold shr. destruct n as [|q|q]; try lia.
  rewrite iter_pos_iter. reflexivity.
Qed.

Lemma shr_nonpos r e n : n <= 0 -> shr r e n = (r, e).
Proof. intros H. unfold shr. destruct n as [|q|q]; try lia; reflexivity. Qed.

(** Rounding [m * 2^e] does not depend on how the value is split between
    mantissa and exponent. *)
Lemma binary_round_xO s m e :
  binary_round prec emax s (m~0) (e - 1) = binary_round prec emax s m e.
Proof.
  unfold binary_round.
  replace (Zpos (digits2_pos m~0) + (e - 1)) with (Zpos (digits2_pos m) + e)
    by (simpl digits2_pos; lia).
  set (f := fexp prec emax (Zpos (digits2_pos m) + e)).
  destruct (Z_lt_le_dec f e) as [Hlt|Hge].
  - (* both are shifted left to exponent f, or the first already sits there *)
    rewrite (shl_align_lt m e f Hlt).
    destruct (Z.eq_dec f (e - 1)) as [Heq|Hne].
    + rewrite shl_align_ge by lia.
      replace (e - f) with 1 by lia. rewrite Heq. reflexivity.
    + rewrite shl_align_lt by lia.
      replace (pshl m~0 (e - 1 - f)) with (pshl m (e - f)); [reflexivity|].
      apply Pos2Z.inj. rewrite !pshl_val by lia.
      replace (e - f) with (Z.succ (e - 1 - f)) by lia.
      rewrite Z.pow_succ_r by lia. lia.
  - rewrite !shl_align_ge by lia.
    unfold binary_round_aux.
    replace (shr_fexp prec emax (Zpos m~0) (e - 1) loc_Exact)
      with (shr_fexp prec emax (Zpos m) e loc_Exact); [reflexivity|].
    unfold shr_fexp. simpl Zdigits2.
    replace (Zpos (Pos.succ (digits2_pos m)) + (e - 1)) with (Zpos (digits2_pos m) + e) by lia.
    fold f. simpl shr_record_of_loc.
    rewrite (shr_pos _ (e - 1) (f - (e - 1))) by lia.
    destruct (Z.eq_dec f e) as [Heq|Hne].
    + rewrite shr_nonpos by lia. rewrite Heq.
      replace (e - (e - 1)) with 1 by lia. simpl. f_equal. lia.
    + rewrite shr_pos by lia.
      replace (f - (e - 1)) with (Z.succ (f - e)) by lia.
      rewrite Z2Pos.inj_succ by lia.
      rewrite Pos.iter_succ_r. simpl shr_1. f_equal. lia.
Qed.

Lemma binary_round_pshl s m e k :
  0 <= k -> binary_round prec emax s (pshl m k) (e - k) = binary_round prec emax s m e.
Proof.
  intros Hk. revert e. pattern k. apply natlike_ind; [| |exact Hk].
  - intros e. simpl. f_equal. lia.
  - intros j Hj IH e.
    replace (pshl m (Z.succ j)) with (xO (pshl m j)).
    + replace (e - Z.succ j) with (e - j - 1) by lia.
      rewrite binary_round_xO. apply IH.
    + apply Pos2Z.inj. rewrite Pos2Z.inj_xO, !pshl_val by lia.
      rewrite Z.pow_succ_r by lia. lia.
Qed.

Lemma binary_round_aux_canonical s m e :
  fexp prec emax (Zpos (digits2_pos m) + e) = e -> e <= emax - prec ->
  binary_round_aux prec emax s (Zpos m) e loc_Exact = S754_finite s m e.
Proof.
  intros Hc He. unfold binary_round_aux, shr_fexp. simpl Zdigits2.
  rewrite Hc, Z.sub_diag. simpl. rewrite Hc, Z.sub_diag. simpl.
  destruct (Z.leb_spec e (emax - prec)); [reflexivity | lia].
Qed.

(** Integers below [2^53] are represented exactly. *)
Lemma binary_round_small s p :
  Zpos p < 2 ^ 53 ->
  binary_round prec emax s p 0 =
  S754_finite s (pshl p (53 - Zpos (digits2_pos p))) (Zpos (digits2_pos p) - 53).
Proof.
  intros Hp. pose proof (digits2_pos_le_53 p Hp) as Hd.
  set (d := Zpos (digits2_pos p)) in *.
  assert (Hd1 : 1 <= d) by (unfold d; lia).
  unfold binary_round.
  rewrite Z.add_0_r. fold d.
  assert (Hf : fexp prec emax d = d - 53) by (unfold fexp, SpecFloat.emin, prec, emax; lia).
  rewrite Hf.
  assert (Hal : shl_align p 0 (d - 53) = (pshl p (53 - d), d - 53)).
  { destruct (Z.eq_dec d 53) as [E|E].
    - rewrite shl_align_ge by lia. rewrite E. reflexivity.
    - rewrite shl_align_lt by lia. f_equal. f_equal. lia. }
  rewrite Hal. apply binary_round_aux_canonical.
  - rewrite pshl_digits by lia. fold d. unfold fexp, SpecFloat.emin, prec, emax. lia.
  - unfold prec, emax. lia.
Qed.



Lemma of_Z_small z :
  z <> 0 -> Z.abs z < 2 ^ 53 ->
  of_Z z = S754_finite (sign_of z)
             (pshl (Z.to_pos (Z.abs z)) (53 - Zpos (digits2_pos (Z.to_pos (Z.abs z)))))
             (Zpos (digits2_pos (Z.to_pos (Z.abs z))) - 53).
Proof.
  intros Hz Hb. unfold of_Z, binary_normalize.
  destruct z as [|p|p]; [congruence | |]; simpl Z.abs in *; simpl Z.to_pos; simpl sign_of;
    apply binary_round_small; exact Hb.
Qed.

Lemma binary_normalize_scaled z k :
  0 <= k -> binary_normalize prec emax (z * 2 ^ k) (- k) false = of_Z z.
Proof.
  intros Hk. unfold of_Z.
  assert (H2 : 0 < 2 ^ k) by (apply Z.pow_pos_nonneg; lia).
  destruct z as [|p|p].
  - reflexivity.
  - replace (Zpos p * 2 ^ k) with (Zpos (pshl p k)) by (rewrite pshl_val; lia).
    simpl binary_normalize.
    replace (- k) with (0 - k) by lia. apply binary_round_pshl; exact Hk.
  - replace (Zneg p * 2 ^ k) with (Zneg (pshl p k))
      by (rewrite <- !Pos2Z.opp_pos, pshl_val by lia; lia).
    simpl binary_normalize.
    replace (- k) with (0 - k) by lia. apply binary_round_pshl; exact Hk.
Qed.

Lemma cond_Zopp_sign z : cond_Zopp (sign_of z) (Zpos (Z.to_pos (Z.abs z))) = z \/ z = 0.
Proof. destruct z; simpl; auto. Qed.

(** Addition of two integers below [2^53] in magnitude is the rounding of
    their exact sum. *)
Lemma add_of_Z a b :
  Z.abs a < 2 ^ 53 -> Z.abs b < 2 ^ 53 -> add (of_Z a) (of_Z b) = of_Z (a + b).
Proof.
  intros Ha Hb.
  destruct (Z.eq_dec b 0) as [->|Hnb].
  { rewrite Z.add_0_r. change (of_Z 0) with (S754_zero false).
    destruct (Z.eq_dec a 0) as [->|Hna]; [reflexivity|].
    rewrite (of_Z_small a Hna Ha). reflexivity. }
  destruct (Z.eq_dec a 0) as [->|Hna].
  { rewrite Z.add_0_l, (of_Z_small b Hnb Hb). reflexivity. }
  rewrite (of_Z_small a Hna Ha), (of_Z_small b Hnb Hb).
  set (pa := Z.to_pos (Z.abs a)). set (pb := Z.to_pos (Z.abs b)).
  pose proof (digits2_pos_le_53 pa ltac:(unfold pa; lia)) as Hda.
  pose proof (digits2_pos_le_53 pb ltac:(unfold pb; lia)) as Hdb.
  set (da := Zpos (digits2_pos pa)) in *. set (db := Zpos (digits2_pos pb)) in *.
  unfold add, SFadd.
  set (ez := Z.min (da - 53) (db - 53)).
  assert (Hfa : Zpos (fst (shl_align (pshl pa (53 - da)) (da - 53) ez)) = Zpos pa * 2 ^ (- ez)).
  { destruct (Z_lt_le_dec ez (da - 53)).
    - rewrite shl_align_lt by lia. simpl fst. rewrite !pshl_val by lia.
      rewrite <- Z.mul_assoc, <- Z.pow_add_r by lia. f_equal. f_equal. lia.
    - rewrite shl_align_ge by lia. simpl fst. rewrite pshl_val by lia.
      f_equal. f_equal. lia. }
  assert (Hfb : Zpos (fst (shl_align (pshl pb (53 - db)) (db - 53) ez)) = Zpos pb * 2 ^ (- ez)).
  { destruct (Z_lt_le_dec ez (db - 53)).
    - rewrite shl_align_lt by lia. simpl fst. rewrite !pshl_val by lia.
      rewrite <- Z.mul_assoc, <- Z.pow_add_r by lia. f_equal. f_equal. lia.
    - rewrite shl_align_ge by lia. simpl fst. rewrite pshl_val by lia.
      f_equal. f_equal. lia. }
  rewrite Hfa, Hfb.
  replace (cond_Zopp (sign_of a) (Zpos pa * 2 ^ (- ez)) + cond_Zopp (sign_of b) (Zpos pb * 2 ^ (- ez)))
    with ((a + b) * 2 ^ (- ez)).
  - replace ez with (- - ez) at 2 by lia. apply binary_normalize_scaled. lia.
  - unfold pa, pb. destruct a, b; simpl; try congruence; lia.
Qed.

(** ** The aggregation *)

Section AggregateFacts.
Variable useReviewer : string -> option Reviewer.t.

Lemma sum_snoc l x : sum (l ++ [x]) = add (sum l) x.
Proof. unfold sum. apply foldl_snoc. Qed.

Lemma tally_snoc l x : tally (l ++ [x]) = add (tally l) one.
Proof. unfold tally. rewrite foldl_snoc. reflexivity. Qed.

Lemma scores_of_snoc d rs r :
  scores_of useReviewer d (rs ++ [r]) =
  if decide (dimension_of useReviewer r = d)
  then scores_of useReviewer d rs ++ [Result.score r]
  else scores_of useReviewer d rs.
Proof.
  unfold scores_of. rewrite filter_app, fmap_app, filter_cons, filter_nil.
  case_decide; simpl; [reflexivity | apply app_nil_r].
Qed.

Lemma reducer_lookup_ne acc r d :
  dimension_of useReviewer r <> d ->
  reducer useReviewer acc r !! d = acc !! d.
Proof.
  intros Hne. unfold reducer.
  destruct (inherited (dimension_of useReviewer r)); [reflexivity|].
  rewrite !lookup_alter_ne by exact Hne.
  destruct (acc !! dimension_of useReviewer r); [reflexivity|].
  apply lookup_insert_ne; exact Hne.
Qed.

Lemma reducer_lookup_eq acc r :
  inherited (dimension_of useReviewer r) = false ->
  reducer useReviewer acc r !! dimension_of useReviewer r =
  Some (match acc !! dimension_of useReviewer r with
        | Some e => mkEntry (add (total e) (Result.score r)) (add (count e) one)
        | None => mkEntry (add zero (Result.score r)) (add zero one)
        end).
Proof.
  intros Hi. unfold reducer. rewrite Hi, !lookup_alter_eq.
  destruct (acc !! dimension_of useReviewer r) as [e|] eqn:E.
  - rewrite E. reflexivity.
  - rewrite lookup_insert_eq. reflexivity.
Qed.

(** What [averageScores] holds under each property name. *)
Lemma averageScores_lookup results d :
  averageScores useReviewer results !! d =
  if inherited d then None else entry_of (scores_of useReviewer d results).
Proof.
  induction results as [|r rs IH] using rev_ind.
  - unfold averageScores. simpl. rewrite lookup_empty. destruct (inherited d); reflexivity.
  - unfold averageScores in *. rewrite foldl_snoc, scores_of_snoc.
    destruct (decide (dimension_of useReviewer r = d)) as [Heq|Hne].
    + destruct (inherited d) eqn:Hi.
      * unfold reducer. rewrite Heq, Hi. exact IH.
      * subst d. rewrite reducer_lookup_eq by exact Hi. rewrite IH.
        destruct (scores_of useReviewer (dimension_of useReviewer r) rs) as [|x l] eqn:E.
        -- reflexivity.
        -- simpl entry_of at 1.
           change (entry_of ((x :: l) ++ [Result.score r]))
             with (Some (mkEntry (sum ((x :: l) ++ [Result.score r]))
                                 (tally ((x :: l) ++ [Result.score r])))).
           rewrite sum_snoc, tally_snoc. reflexivity.
    + rewrite reducer_lookup_ne by exact Hne. exact IH.
Qed.

(** The aggregation, dimension by dimension: a name that is not inherited
    has an entry exactly when some result carries it, and the entry is the
    left-to-right sum of that dimension's scores divided by their tally,
    rounded by [toFixed(1)]. *)
Lemma scoreData_lookup results d :
  scoreData useReviewer results !! d =
  if inherited d then None
  else averageScore <$> entry_of (scores_of useReviewer d results).
Proof.
  unfold scoreData. rewrite lookup_fmap, averageScores_lookup.
  destruct (inherited d); reflexivity.
Qed.

Lemma scores_of_elem results d x :
  x ∈ scores_of useReviewer d results ->
  exists r, r ∈ results /\ dimension_of useReviewer r = d.
Proof.
  unfold scores_of. intros Hx. apply list_elem_of_fmap in Hx.
  destruct Hx as (r & _ & Hr). apply list_elem_of_filter in Hr.
  exists r. tauto.
Qed.

Lemma scores_of_occurs results d r :
  r ∈ results -> dimension_of useReviewer r = d ->
  scores_of useReviewer d results <> [].
Proof.
  intros Hr Hd Hnil. unfold scores_of in Hnil. apply fmap_nil_inv in Hnil.
  assert (Hin : r ∈ filter (fun r => dimension_of useReviewer r = d) results)
    by (apply list_elem_of_filter; auto).
  rewrite Hnil in Hin. apply elem_of_nil in Hin. exact Hin.
Qed.

(** One entry per dimension that occurs, inherited names apart. *)
Lemma scoreData_is_Some results d :
  is_Some (scoreData useReviewer results !! d) <->
  inherited d = false /\ exists r, r ∈ results /\ dimension_of useReviewer r = d.
Proof.
  rewrite scoreData_lookup. destruct (inherited d).
  - split; [intros [x Hx]; discriminate | intros [H _]; discriminate].
  - destruct (scores_of useReviewer d results) as [|x l] eqn:E; simpl.
    + split; [intros [y Hy]; discriminate|].
      intros [_ (r & Hr & Hd)]. destruct (scores_of_occurs results d r Hr Hd E).
    + split; [|intros _; eexists; reflexivity].
      intros _. split; [reflexivity|].
      apply (scores_of_elem results d x). rewrite E. left.
Qed.

(** A result whose reviewer is not resolved counts under ["Unknown"]. *)
Lemma unresolved_reviewer_is_Unknown r :
  useReviewer (Result.reviewer_id r) = None ->
  dimension_of useReviewer r = "Unknown"%string.
Proof. intros H. unfold dimension_of. rewrite H. reflexivity. Qed.

End AggregateFacts.

(** Whatever the scores are, the dimensions that get an entry do not depend
    on the order of the results. *)
Lemma scoreData_labels_Permutation useReviewer (results results' : list Result.t) d :
  results ≡ₚ results' ->
  is_Some (scoreData useReviewer results !! d) <->
  is_Some (scoreData useReviewer results' !! d).
Proof.
  intros Hperm. rewrite !scoreData_is_Some.
  split; intros [Hd (r & Hr & Hdim)]; (split; [exact Hd|]); exists r;
    (split; [|exact Hdim]); [rewrite <- Hperm | rewrite Hperm]; exact Hr.
Qed.

Lemma zabs_sum_nonneg zs : 0 <= zabs_sum zs.
Proof. induction zs; simpl; lia. Qed.

Lemma foldl_add_of_Z t zs :
  Z.abs t + zabs_sum zs < 2 ^ 53 ->
  foldl add (of_Z t) (of_Z <$> zs) = of_Z (t + zsum zs).
Proof.
  revert t. induction zs as [|z zs IH]; intros t Hb; simpl in *.
  - f_equal. lia.
  - pose proof (zabs_sum_nonneg zs).
    rewrite add_of_Z by lia. rewrite IH by lia. f_equal. lia.
Qed.

Lemma sum_of_Z zs : zabs_sum zs < 2 ^ 53 -> sum (of_Z <$> zs) = of_Z (zsum zs).
Proof.
  intros Hb. unfold sum. change zero with (of_Z 0).
  rewrite foldl_add_of_Z by (simpl; lia). reflexivity.
Qed.

Lemma tally_length (l : list num) :
  tally l = Nat.iter (length l) (fun c => add c one) zero.
Proof.
  induction l as [|x l IH] using rev_ind; [reflexivity|].
  rewrite tally_snoc, length_app, Nat.add_comm. simpl. rewrite IH. reflexivity.
Qed.

(** For fewer than [2^53] scores the tally is their number. *)
Lemma tally_of_Z (l : list num) :
  Z.of_nat (length l) < 2 ^ 53 -> tally l = of_Z (Z.of_nat (length l)).
Proof.
  induction l as [|x l IH] using rev_ind; intros Hlen; [reflexivity|].
  rewrite length_app in Hlen. simpl in Hlen.
  rewrite tally_snoc, IH by lia. unfold one.
  rewrite add_of_Z by lia. f_equal. rewrite length_app. simpl. lia.
Qed.

Lemma zsum_Permutation zs zs' : zs ≡ₚ zs' -> zsum zs = zsum zs'.
Proof. induction 1; simpl in *; lia. Qed.

Lemma zabs_sum_Permutation zs zs' : zs ≡ₚ zs' -> zabs_sum zs = zabs_sum zs'.
Proof. induction 1; simpl in *; lia. Qed.

Lemma zabs_sum_filter {A} (f : A -> Z) (P : A -> Prop) `{forall x, Decision (P x)} l :
  zabs_sum (f <$> filter P l) <= zabs_sum (f <$> l).
Proof.
  induction l as [|x l IH]; [reflexivity|].
  rewrite filter_cons. destruct (decide (P x)); rewrite !fmap_cons;
    change (zabs_sum (f x :: ?t)) with (Z.abs (f x) + zabs_sum t); lia.
Qed.

(** The example of the specification: clarity 8 and 6, safety 10. *)
Example scoreData_spec_example :
  scoreData example_useReviewer scores_8_6_10 =
  <["clarity"%string := of_Z 7]> (<["safety"%string := of_Z 10]> ∅).
Proof. vm_compute. reflexivity. Qed.

Lemma entry_of_ext l l' :
  length l = length l' -> sum l = sum l' -> entry_of l = entry_of l'.
Proof.
  intros Hlen Hsum. unfold entry_of.
  destruct l as [|x l], l' as [|x' l']; try discriminate; [reflexivity|].
  rewrite Hsum, !tally_length, Hlen. reflexivity.
Qed.

Lemma fmap_score_of_Z (zscore : Result.t -> Z) (l : list Result.t) :
  (forall r, r ∈ l -> Result.score r = of_Z (zscore r)) ->
  Result.score <$> l = of_Z <$> (zscore <$> l).
Proof.
  intros H. rewrite <- list_fmap_compose. apply list_fmap_ext.
  intros i r Hr. apply H. eapply list_elem_of_lookup_2; exact Hr.
Qed.

(** C8 (amended): when the scores are integers whose absolute values sum
    to less than [2^53], the mapping from dimension to rounded mean is the
    same for every permutation of the results; on no results the mapping
    is empty. *)
Theorem aggregate_permutation_integer_scores useReviewer (zscore : Result.t -> Z)
    (results results' : list Result.t) :
  results ≡ₚ results' ->
  (forall r, r ∈ results -> Result.score r = of_Z (zscore r)) ->
  zabs_sum (zscore <$> results) < 2 ^ 53 ->
  scoreData useReviewer results = scoreData useReviewer results' /\
  scoreData useReviewer [] = ∅.
Proof.
  intros Hperm Hint Hbound. split; [|reflexivity].
  apply map_eq. intros d. rewrite !scoreData_lookup.
  destruct (inherited d); [reflexivity|]. f_equal.
  unfold scores_of.
  set (P := fun r => dimension_of useReviewer r = d).
  assert (Hp : filter P results ≡ₚ filter P results') by (rewrite Hperm; reflexivity).
  apply entry_of_ext.
  - rewrite !length_fmap. rewrite Hp. reflexivity.
  - rewrite (fmap_score_of_Z zscore (filter P results)).
    2:{ intros r Hr. apply Hint. apply list_elem_of_filter in Hr. tauto. }
    rewrite (fmap_score_of_Z zscore (filter P results')).
    2:{ intros r Hr. apply Hint. rewrite Hperm. apply list_elem_of_filter in Hr. tauto. }
    pose proof (zabs_sum_filter zscore P results) as Hle.
    assert (Hz : zscore <$> filter P results ≡ₚ zscore <$> filter P results')
      by (rewrite Hp; reflexivity).
    rewrite !sum_of_Z.
    + f_equal. apply zsum_Permutation. exact Hz.
    + rewrite <- (zabs_sum_Permutation _ _ Hz). lia.
    + lia.
Qed.

(** The scores [8, 6, 10] of the two reviewers, in two orders. *)
Lemma aggregate_permutation_integer_scores_witness :
  scores_8_6_10 ≡ₚ scores_10_8_6 /\
  (forall r, r ∈ scores_8_6_10 -> Result.score r = of_Z (example_zscore r)) /\
  zabs_sum (example_zscore <$> scores_8_6_10) < 2 ^ 53 /\
  scoreData example_useReviewer scores_8_6_10 = scoreData example_useReviewer scores_10_8_6 /\
  scoreData example_useReviewer [] = ∅.
Proof.
  assert (Hp : scores_8_6_10 ≡ₚ scores_10_8_6).
  { unfold scores_8_6_10, scores_10_8_6.
    etrans; [apply perm_skip, perm_swap|]. apply perm_swap. }
  assert (Hi : forall r, r ∈ scores_8_6_10 -> Result.score r = of_Z (example_zscore r)).
  { intros r Hr. unfold scores_8_6_10 in Hr.
    repeat (apply elem_of_cons in Hr; destruct Hr as [->|Hr]; [reflexivity|]).
    apply elem_of_nil in Hr. destruct Hr. }
  assert (Hb : zabs_sum (example_zscore <$> scores_8_6_10) < 2 ^ 53) by (vm_compute; reflexivity).
  exact (conj Hp (conj Hi (conj Hb
          (aggregate_permutation_integer_scores example_useReviewer example_zscore
             scores_8_6_10 scores_10_8_6 Hp Hi Hb)))).
Defined.

(** With fractional scores the sum, and with it the rounded mean, depends
    on the order: [5, 5, 5.3, 8.1] averages to [5.8], and
    [5, 5, 8.1, 5.3] to [5.9]. *)
Lemma aggregate_depends_on_order :
  scores_5_5_53_81 ≡ₚ scores_5_5_81_53 /\
  scoreData example_useReviewer scores_5_5_53_81 !! "clarity"%string = Some (of_decimal 58 1) /\
  scoreData example_useReviewer scores_5_5_81_53 !! "clarity"%string = Some (of_decimal 59 1) /\
  scoreData example_useReviewer scores_5_5_53_81 <> scoreData example_useReviewer scores_5_5_81_53.
Proof.
  split; [|split; [|split]].
  - unfold scores_5_5_53_81, scores_5_5_81_53. do 2 apply perm_skip. apply perm_swap.
  - vm_compute. reflexivity.
  - vm_compute. reflexivity.
  - intros H. apply (f_equal (fun m => m !! "clarity"%string)) in H.
    vm_compute in H. discriminate H.
Qed.

(** C2: a dimension named like a property inherited from
    [Object.prototype] never gets an entry, whatever the results are; in
    particular, for the single result of reviewer [r3], of dimension
    ["constructor"], the aggregation is empty, where one entry for that
    dimension is expected. *)
Theorem inherited_label_has_no_entry :
  Forall (fun d => forall useReviewer results,
            scoreData useReviewer results !! d = None)
         Object_prototype_keys /\
  dimension_of example_useReviewer (Result.mk "r3" (of_Z 8)) = "constructor"%string /\
  scoreData example_useReviewer [Result.mk "r3" (of_Z 8)] = ∅.
Proof.
  split; [|split].
  - unfold Object_prototype_keys.
    repeat constructor; intros useReviewer results; rewrite scoreData_lookup; reflexivity.
  - reflexivity.
  - vm_compute. reflexivity.
Qed.

Local Close Scope Z_scope.

(** ** The effect combinators *)

Lemma for_of_app {A} (l1 l2 : list A) (body : A -> M unit) w :
  for_of (l1 ++ l2) body w =
  match for_of l1 body w with
  | (inl e, w1) => (inl e, w1)
  | (inr _, w1) => for_of l2 body w1
  end.
Proof.
  revert w. induction l1 as [|x l1 IH]; intros w; simpl.
  - reflexivity.
  - unfold bind. destruct (body x w) as [[e|[]] w1]; [reflexivity | apply IH].
Qed.

Lemma for_of_cons_ok {A} (x : A) (l : list A) (body : A -> M unit) w w1 :
  body x w = (inr tt, w1) -> for_of (x :: l) body w = for_of l body w1.
Proof. intros H. simpl. unfold bind. rewrite H. reflexivity. Qed.

Lemma for_of_cons_throw {A} (x : A) (l : list A) (body : A -> M unit) w w1 e :
  body x w = (inl e, w1) -> for_of (x :: l) body w = (inl e, w1).
Proof. intros H. simpl. unfold bind. rewrite H. reflexivity. Qed.

(** *** Relations that every step of a computation maintains *)

Section Preserves.
Context (R : World -> World -> Prop) `{!PreOrder R}.

Lemma preserves_ret {A} (x : A) : preserves R (ret x).
Proof. intros w. reflexivity. Qed.

Lemma preserves_throw {A} e : preserves R (@throw A e).
Proof. intros w. reflexivity. Qed.

Lemma preserves_lift {A} (r : JS.exn + A) : preserves R (lift r).
Proof. destruct r; [apply preserves_throw | apply preserves_ret]. Qed.

Lemma preserves_bind {A B} (m : M A) (k : A -> M B) :
  preserves R m -> (forall x, preserves R (k x)) -> preserves R (bind m k).
Proof.
  intros Hm Hk w. unfold bind. specialize (Hm w).
  destruct (m w) as [[e|x] w1]; simpl in *; [exact Hm|].
  etrans; [exact Hm | apply Hk].
Qed.

Lemma preserves_try_catch m handler :
  preserves R m -> (forall e, preserves R (handler e)) ->
  preserves R (try_catch m handler).
Proof.
  intros Hm Hh w. unfold try_catch. specialize (Hm w).
  destruct (m w) as [[e|x] w1]; simpl in *; [|exact Hm].
  etrans; [exact Hm | apply Hh].
Qed.

Lemma preserves_try_catch_finally m handler final :
  preserves R m -> (forall e, preserves R (handler e)) -> preserves R final ->
  preserves R (try_catch_finally m handler final).
Proof.
  intros Hm Hh Hf w. unfold try_catch_finally.
  pose proof (preserves_try_catch m handler Hm Hh w) as H1.
  destruct (try_catch m handler w) as [[e|x] w1]; simpl in *.
  - specialize (Hf w1). destruct (final w1) as [[e'|y] w2]; simpl in *;
      etrans; eassumption.
  - etrans; [exact H1 | apply Hf].
Qed.

Lemma preserves_for_of {A} (l : list A) (body : A -> M unit) :
  (forall x, preserves R (body x)) -> preserves R (for_of l body).
Proof.
  intros Hb. induction l as [|x l IH]; simpl.
  - apply preserves_ret.
  - apply preserves_bind; [apply Hb | intros _; exact IH].
Qed.

End Preserves.

#[export] Instance grows_preorder : PreOrder grows.
Proof.
  split.
  - intros w. split; reflexivity.
  - intros w1 w2 w3 [H1 H2] [H3 H4]. split; etrans; eassumption.
Qed.

#[export] Instance same_flag_preorder : PreOrder same_flag.
Proof.
  split.
  - intros w. reflexivity.
  - intros w1 w2 w3 H1 H2. unfold same_flag in *. congruence.
Qed.

Lemma grows_toast t : preserves grows (toast t).
Proof. intros w. split; simpl; reflexivity. Qed.
Lemma grows_console_error l e : preserves grows (console_error l e).
Proof. intros w. split; simpl; reflexivity. Qed.
Lemma grows_setIsRunning b : preserves grows (setIsRunning b).
Proof. intros w. split; simpl; reflexivity. Qed.
Lemma grows_navigate p : preserves grows (navigate p).
Proof. intros w. split; simpl; reflexivity. Qed.
Lemma grows_call {A} c (answer : list Call -> A) : preserves grows (call c answer).
Proof. intros w. split; simpl; reflexivity. Qed.
Lemma grows_store_run r : preserves grows (store_run r).
Proof. intros w. split; simpl; [apply prefix_app_r|]; reflexivity. Qed.
Lemma grows_store_result r : preserves grows (store_result r).
Proof. intros w. split; simpl; [|apply prefix_app_r]; reflexivity. Qed.

Lemma flag_toast t : preserves same_flag (toast t).
Proof. intros w. reflexivity. Qed.
Lemma flag_console_error l e : preserves same_flag (console_error l e).
Proof. intros w. reflexivity. Qed.
Lemma flag_navigate p : preserves same_flag (navigate p).
Proof. intros w. reflexivity. Qed.
Lemma flag_call {A} c (answer : list Call -> A) : preserves same_flag (call c answer).
Proof. intros w. reflexivity. Qed.
Lemma flag_store_run r : preserves same_flag (store_run r).
Proof. intros w. reflexivity. Qed.
Lemma flag_store_result r : preserves same_flag (store_result r).
Proof. intros w. reflexivity. Qed.

Create HintDb preserves.
#[export] Hint Resolve preserves_ret preserves_throw preserves_lift
  grows_toast grows_console_error grows_setIsRunning grows_navigate grows_call
  grows_store_run grows_store_result
  flag_toast flag_console_error flag_navigate flag_call flag_store_run
  flag_store_result : preserves.

Ltac preserves_step :=
  first
    [ solve [auto with preserves typeclass_instances]
    | match goal with
      | |- preserves _ (bind _ _) => apply preserves_bind; [exact _| |intros ?]
      | |- preserves _ (try_catch _ _) => apply preserves_try_catch; [exact _| |intros ?]
      | |- preserves _ (try_catch_finally _ _ _) =>
          apply preserves_try_catch_finally; [exact _| |intros ?|]
      | |- preserves _ (for_of _ _) => apply preserves_for_of; [exact _|intros ?]
      | |- preserves _ (match ?x with _ => _ end) => destruct x
      | |- preserves _ (if ?x then _ else _) => destruct x
      end ].

Section HandlersPreserve.
Variable E : Env.
Context (R : World -> World -> Prop) `{!PreOrder R}.
Hypothesis R_toast : forall t, preserves R (toast t).
Hypothesis R_call : forall A c (answer : list Call -> A), preserves R (call c answer).
Hypothesis R_store_run : forall r, preserves R (store_run r).
Hypothesis R_store_result : forall r, preserves R (store_result r).

Lemma preserves_runner_body props token sid :
  preserves R (BenchmarkRunner.scenario_body E props token sid).
Proof.
  unfold BenchmarkRunner.scenario_body, BenchmarkRunner.create_run,
    BenchmarkRunner.start_run, scenario_prop, session_user, await_impersonateUser,
    await_fetch, await_runs_insert, await_start_paused_run.
  repeat preserves_step.
Qed.

Lemma preserves_page_body st sid :
  preserves R (StartBenchmark.scenario_body E st sid).
Proof.
  unfold StartBenchmark.scenario_body, scenario_prop, session_user, scenario_reviewers,
    await_impersonateUser, await_addRun, await_addResult.
  repeat preserves_step.
Qed.

End HandlersPreserve.

Section HandlersKeepRows.
Variable E : Env.

Lemma grows_runner_body props token sid :
  preserves grows (BenchmarkRunner.scenario_body E props token sid).
Proof. apply preserves_runner_body; auto with preserves typeclass_instances. Qed.

Lemma grows_page_body st sid :
  preserves grows (StartBenchmark.scenario_body E st sid).
Proof. apply preserves_page_body; auto with preserves typeclass_instances. Qed.

Lemma flag_runner_body props token sid :
  preserves same_flag (BenchmarkRunner.scenario_body E props token sid).
Proof. apply preserves_runner_body; auto with preserves typeclass_instances. Qed.

Lemma grows_runner_try props token :
  preserves grows
    (try_catch (BenchmarkRunner.batch E props token) BenchmarkRunner.on_error).
Proof.
  unfold BenchmarkRunner.batch, BenchmarkRunner.on_error.
  pose proof (grows_runner_body props token).
  repeat preserves_step.
Qed.

Lemma grows_runner_handler props :
  preserves grows (BenchmarkRunner.handleStartBenchmark E props).
Proof.
  unfold BenchmarkRunner.handleStartBenchmark.
  pose proof (grows_runner_try props).
  repeat preserves_step.
Qed.

Lemma grows_page_try st :
  preserves grows
    (try_catch_finally (StartBenchmark.batch E st) StartBenchmark.on_error
                       (setIsRunning false)).
Proof.
  unfold StartBenchmark.batch, StartBenchmark.on_error.
  pose proof (grows_page_body st).
  repeat preserves_step.
Qed.

Lemma grows_page_handler st :
  preserves grows (StartBenchmark.handleStartBenchmark E st).
Proof.
  unfold StartBenchmark.handleStartBenchmark.
  pose proof (grows_page_try st).
  repeat preserves_step.
Qed.

End HandlersKeepRows.

Section RunnerFacts.
Variable E : Env.

Lemma runner_handler_checked props token w :
  BenchmarkRunner.selectedScenarios props <> [] ->
  resolve_token E (BenchmarkRunner.userSecrets props) = Some token ->
  BenchmarkRunner.handleStartBenchmark E props w =
  try_catch (BenchmarkRunner.batch E props token) BenchmarkRunner.on_error (started w).
Proof.
  intros Hsel Htok. unfold BenchmarkRunner.handleStartBenchmark, resolve_token in *.
  destruct (BenchmarkRunner.selectedScenarios props) as [|x l]; [congruence|].
  destruct (BenchmarkRunner.userSecrets props) as [[|first rest]|]; try discriminate.
  destruct (JSON_parse E (secret first)) as [secrets|]; [|discriminate].
  unfold bind at 1. simpl lift at 1. unfold ret at 1.
  destruct (JS.get secrets "GPT_ENGINEER_TEST_TOKEN") as [e|t]; [discriminate|].
  unfold bind at 1. simpl lift at 1. unfold ret at 1.
  destruct (JS.truthy t); [|discriminate].
  injection Htok as ->. reflexivity.
Qed.

Lemma runner_try_split props token pre post w :
  BenchmarkRunner.selectedScenarios props = pre ++ post ->
  try_catch (BenchmarkRunner.batch E props token) BenchmarkRunner.on_error w =
  match for_of pre (BenchmarkRunner.scenario_body E props token) w with
  | (inl e, w1) => BenchmarkRunner.on_error e w1
  | (inr _, w1) =>
      try_catch (bind (for_of post (BenchmarkRunner.scenario_body E props token))
                      (fun _ => toast (ToastSuccess "All benchmarks started successfully!")))
                BenchmarkRunner.on_error w1
  end.
Proof.
  intros Hsel. unfold BenchmarkRunner.batch. rewrite Hsel.
  unfold try_catch, bind. rewrite for_of_app.
  destruct (for_of pre _ w) as [[e|[]] w1]; reflexivity.
Qed.

Lemma try_catch_cons {A} (x : A) l (body : A -> M unit) (k : unit -> M unit) h w :
  try_catch (bind (for_of (x :: l) body) k) h w =
  match body x w with
  | (inl e, w') => h e w'
  | (inr _, w') => try_catch (bind (for_of l body) k) h w'
  end.
Proof.
  unfold try_catch, bind. simpl. unfold bind.
  destruct (body x w) as [[e|[]] w']; reflexivity.
Qed.

Lemma on_error_world e w :
  BenchmarkRunner.on_error e w =
  (inr tt,
   set_running false
     (add_toast (ToastError "An error occurred while starting the benchmark. Please try again.")
        (add_console "Error starting benchmark:" e w))).
Proof. reflexivity. Qed.

End RunnerFacts.

Section RunnerBatch.
Variable E : Env.

Lemma runner_body_eq props token sid w :
  BenchmarkRunner.scenario_body E props token sid w =
  match BenchmarkRunner.create_run E props token sid w with
  | (inl e, w') => (inl e, w')
  | (inr created, w') => BenchmarkRunner.start_run E (fst created) (snd created) w'
  end.
Proof. reflexivity. Qed.

Lemma runner_start_run_eq sc run_id w :
  BenchmarkRunner.start_run E sc run_id w =
  match start_paused_run E (calls (record_call (CallStartPausedRun run_id) w)) with
  | RpcData startedRun =>
      (inr tt,
       add_toast
         (if JS.truthy startedRun
          then ToastSuccess ("Benchmark started for scenario: " +:+ Scenario.name sc)
          else ToastWarning ("Benchmark created but not started for scenario: "
                             +:+ Scenario.name sc))
         (record_call (CallStartPausedRun run_id) w))
  | RpcError message =>
      (inl (JS.Error ("Failed to start run: " +:+ message)),
       record_call (CallStartPausedRun run_id) w)
  end.
Proof.
  unfold BenchmarkRunner.start_run, await_start_paused_run, call, bind.
  destruct (start_paused_run E _) as [startedRun|message]; [|reflexivity].
  destruct (JS.truthy startedRun); reflexivity.
Qed.

Lemma runner_body_missing props token sid w :
  find_scenario (BenchmarkRunner.scenarios props) sid = None ->
  BenchmarkRunner.scenario_body E props token sid w =
  (inl (JS.TypeError "Cannot read properties of undefined (reading 'prompt')"), w).
Proof.
  intros Hmiss. unfold BenchmarkRunner.scenario_body, BenchmarkRunner.create_run.
  rewrite Hmiss. reflexivity.
Qed.

(** C7: when a selected scenario id is not in the loaded scenario set, the
    batch is aborted by the error raised on reading [scenario.prompt] of
    the missing scenario (or by an earlier error, if an earlier scenario
    already failed): no Run row is written for that scenario, no later
    scenario is processed (the calls issued are exactly those of the
    earlier scenarios), the error is logged and the running flag reset. *)
Theorem missing_scenario_aborts_batch v scs sess us token pre sid post w :
  let props := BenchmarkRunner.mkProps (pre ++ sid :: post) v scs sess us in
  let r1 := for_of pre (BenchmarkRunner.scenario_body E props token) (started w) in
  let err := match fst r1 with
             | inl e => e
             | inr _ => JS.TypeError "Cannot read properties of undefined (reading 'prompt')"
             end in
  let r := BenchmarkRunner.handleStartBenchmark E props w in
  resolve_token E us = Some token ->
  find_scenario scs sid = None ->
  fst r = inr tt /\
  runs (snd r) = runs (snd r1) /\
  results (snd r) = results (snd r1) /\
  calls (snd r) = calls (snd r1) /\
  console (snd r) = console (snd r1) ++ [("Error starting benchmark:"%string, err)] /\
  isRunning (snd r) = false.
Proof.
  intros props r1 err r Htok Hmiss. subst r.
  rewrite (runner_handler_checked E props token w) by (try exact Htok; simpl; destruct pre; discriminate).
  rewrite (runner_try_split E props token pre (sid :: post)) by reflexivity.
  subst err r1. 
  destruct (for_of pre (BenchmarkRunner.scenario_body E props token) (started w))
    as [[e|[]] w1]; cbn [fst snd].
  - rewrite on_error_world. cbn. auto 10.
  - unfold try_catch, bind.
    rewrite (for_of_cons_throw sid post _ w1 w1
               (JS.TypeError "Cannot read properties of undefined (reading 'prompt')"))
      by (apply runner_body_missing; exact Hmiss).
    rewrite on_error_world. cbn. auto 10.
Qed.

Lemma runner_body_fetch_failure props token sid w sc outcome resp :
  let c1 := CallImpersonate (Scenario.prompt sc) (BenchmarkRunner.systemVersion props)
                            (Some (Scenario.llm_temperature sc)) in
  let c2 := CallFetch (BenchmarkRunner.systemVersion props +:+ "/projects/" +:+
                       default "undefined"%string (outcome_projectId outcome)) token in
  find_scenario (BenchmarkRunner.scenarios props) sid = Some sc ->
  impersonateUser E (calls (record_call c1 w)) = inr outcome ->
  fetch E (calls (record_call c2 (record_call c1 w))) = inr resp ->
  ok resp = false ->
  BenchmarkRunner.scenario_body E props token sid w =
  (inl (JS.Error ("Failed to fetch project details: " +:+ statusText resp)),
   record_call c2 (record_call c1 w)).
Proof.
  intros c1 c2 Hfind Himp Hfetch Hok.
  unfold BenchmarkRunner.scenario_body, BenchmarkRunner.create_run.
  rewrite Hfind. unfold scenario_prop, await_impersonateUser, await_fetch, call, bind, ret.
  fold c1. rewrite Himp. unfold lift at 1. unfold ret.
  fold c2. rewrite Hfetch. unfold lift at 1. unfold ret.
  rewrite Hok. reflexivity.
Qed.

(** C3: when the earlier scenarios went through and the project-details
    fetch for a scenario answers with [ok = false], the batch raises
    [Error("Failed to fetch project details: " + statusText)], which is
    logged; the batch stops right after that fetch, and neither the
    failing scenario nor a later one adds a Run row. *)
Theorem fetch_failure_aborts_batch v scs sess us token pre sid post w w1 sc outcome resp :
  let props := BenchmarkRunner.mkProps (pre ++ sid :: post) v scs sess us in
  let c1 := CallImpersonate (Scenario.prompt sc) v (Some (Scenario.llm_temperature sc)) in
  let c2 := CallFetch (v +:+ "/projects/" +:+
                       default "undefined"%string (outcome_projectId outcome)) token in
  let r := BenchmarkRunner.handleStartBenchmark E props w in
  resolve_token E us = Some token ->
  for_of pre (BenchmarkRunner.scenario_body E props token) (started w) = (inr tt, w1) ->
  find_scenario scs sid = Some sc ->
  impersonateUser E (calls (record_call c1 w1)) = inr outcome ->
  fetch E (calls (record_call c2 (record_call c1 w1))) = inr resp ->
  ok resp = false ->
  fst r = inr tt /\
  console (snd r) =
    console w1 ++ [("Error starting benchmark:"%string,
                    JS.Error ("Failed to fetch project details: " +:+ statusText resp))] /\
  runs (snd r) = runs w1 /\
  results (snd r) = results w1 /\
  calls (snd r) = calls w1 ++ [c1; c2] /\
  isRunning (snd r) = false.
Proof.
  intros props c1 c2 r Htok Hpre Hfind Himp Hfetch Hok. subst r.
  rewrite (runner_handler_checked E props token w)
    by (try exact Htok; simpl; destruct pre; discriminate).
  rewrite (runner_try_split E props token pre (sid :: post)) by reflexivity.
  rewrite Hpre. unfold try_catch, bind.
  rewrite (for_of_cons_throw sid post _ w1 _ _
             (runner_body_fetch_failure props token sid w1 sc outcome resp
                Hfind Himp Hfetch Hok)).
  rewrite on_error_world. cbn. rewrite <- app_assoc. auto 10.
Qed.

(** C6: once the paused run of a scenario is inserted, the reply of
    [start_paused_run] decides how the batch goes on.  With data and no
    error, a success notification (truthy data) or a warning (falsy data)
    is shown and the handler continues exactly as the batch over the
    remaining scenarios would; with an error, the batch ends in the error
    path with [Error("Failed to start run: " + message)] and no further
    scenario is processed. *)
Theorem start_reply_warns_or_aborts v scs sess us token pre sid post w w1 sc run_id w2 :
  let props := BenchmarkRunner.mkProps (pre ++ sid :: post) v scs sess us in
  let rest := BenchmarkRunner.mkProps post v scs sess us in
  let w3 := record_call (CallStartPausedRun run_id) w2 in
  let r := BenchmarkRunner.handleStartBenchmark E props w in
  resolve_token E us = Some token ->
  for_of pre (BenchmarkRunner.scenario_body E props token) (started w) = (inr tt, w1) ->
  BenchmarkRunner.create_run E props token sid w1 = (inr (sc, run_id), w2) ->
  match start_paused_run E (calls w3) with
  | RpcData startedRun =>
      if JS.truthy startedRun
      then r = try_catch (BenchmarkRunner.batch E rest token) BenchmarkRunner.on_error
                 (add_toast (ToastSuccess ("Benchmark started for scenario: "
                                           +:+ Scenario.name sc)) w3)
      else r = try_catch (BenchmarkRunner.batch E rest token) BenchmarkRunner.on_error
                 (add_toast (ToastWarning ("Benchmark created but not started for scenario: "
                                           +:+ Scenario.name sc)) w3)
  | RpcError message =>
      r = BenchmarkRunner.on_error (JS.Error ("Failed to start run: " +:+ message)) w3
  end.
Proof.
  intros props rest w3 r Htok Hpre Hcreate. subst r.
  rewrite (runner_handler_checked E props token w)
    by (try exact Htok; simpl; destruct pre; discriminate).
  rewrite (runner_try_split E props token pre (sid :: post)) by reflexivity.
  rewrite Hpre.
  rewrite try_catch_cons, runner_body_eq, Hcreate.
  cbn [fst snd]. rewrite runner_start_run_eq. fold w3.
  destruct (start_paused_run E (calls w3)) as [startedRun|message].
  - destruct (JS.truthy startedRun); reflexivity.
  - reflexivity.
Qed.

(** C10: past the initial checks the running flag is set before the batch;
    when every scenario succeeds it is still set afterwards, the button is
    disabled and a click does nothing; it is reset exactly when the loop
    raised. *)
Theorem running_flag_stays_set_after_success props token w :
  let r := BenchmarkRunner.handleStartBenchmark E props w in
  BenchmarkRunner.selectedScenarios props <> [] ->
  resolve_token E (BenchmarkRunner.userSecrets props) = Some token ->
  match fst (for_of (BenchmarkRunner.selectedScenarios props)
                    (BenchmarkRunner.scenario_body E props token) (started w)) with
  | inr _ =>
      fst r = inr tt /\
      isRunning (snd r) = true /\
      BenchmarkRunner.Button_disabled (snd r) = true /\
      BenchmarkRunner.onClick E props (snd r) = (inr tt, snd r)
  | inl _ => fst r = inr tt /\ isRunning (snd r) = false
  end.
Proof.
  intros r Hsel Htok. subst r.
  rewrite (runner_handler_checked E props token w Hsel Htok).
  unfold try_catch, BenchmarkRunner.batch, bind.
  pose proof (preserves_for_of same_flag (BenchmarkRunner.selectedScenarios props)
                (BenchmarkRunner.scenario_body E props token)
                (flag_runner_body E props token) (started w)) as Hflag.
  destruct (for_of _ _ (started w)) as [[e|[]] w1]; cbn [fst snd] in *.
  - rewrite on_error_world. auto.
  - unfold same_flag in Hflag. simpl in Hflag.
    unfold BenchmarkRunner.onClick, BenchmarkRunner.Button_disabled. cbn.
    rewrite <- Hflag. auto.
Qed.

(** C9: the rows present after the scenarios [pre] were processed are
    still in the tables, unchanged and in place, when the whole batch over
    [pre ++ post] has ended, whatever happened while processing [post],
    the error path included; this holds for both handlers, and the rows
    present before a handler runs are kept as well. *)
Theorem rows_survive_later_failure v scs sess us token pre post w :
  let props := BenchmarkRunner.mkProps (pre ++ post) v scs sess us in
  let st := StartBenchmark.mkState (pre ++ post) v scs sess in
  grows (snd (for_of pre (BenchmarkRunner.scenario_body E props token) w))
        (snd (try_catch (BenchmarkRunner.batch E props token) BenchmarkRunner.on_error w)) /\
  grows (snd (for_of pre (StartBenchmark.scenario_body E st) w))
        (snd (try_catch_finally (StartBenchmark.batch E st) StartBenchmark.on_error
                                (setIsRunning false) w)) /\
  grows w (snd (BenchmarkRunner.handleStartBenchmark E props w)) /\
  grows w (snd (StartBenchmark.handleStartBenchmark E st w)).
Proof.
  intros props st. split; [|split; [|split]].
  - rewrite (runner_try_split E props token pre post) by reflexivity.
    destruct (for_of pre _ w) as [[e|[]] w1]; cbn [snd].
    + rewrite on_error_world. split; reflexivity.
    + pose proof (grows_runner_body E props token) as Hb.
      assert (Ht : preserves grows
                (try_catch (bind (for_of post (BenchmarkRunner.scenario_body E props token))
                                 (fun _ => toast (ToastSuccess "All benchmarks started successfully!")))
                           BenchmarkRunner.on_error)).
      { unfold BenchmarkRunner.on_error. repeat preserves_step. }
      apply Ht.
  - unfold try_catch_finally, try_catch, StartBenchmark.batch. simpl StartBenchmark.selectedScenarios.
    unfold bind at 1. rewrite for_of_app.
    pose proof (grows_page_body E st) as Hb.
    destruct (for_of pre _ w) as [[e|[]] w1]; cbn [snd].
    + split; reflexivity.
    + assert (Ht : preserves grows
                (try_catch_finally
                   (bind (for_of post (StartBenchmark.scenario_body E st))
                         (fun _ => bind (toast (ToastSuccess "All benchmarks completed successfully!"))
                                        (fun _ => navigate "/")))
                   StartBenchmark.on_error (setIsRunning false))).
      { unfold StartBenchmark.on_error. repeat preserves_step. }
      specialize (Ht w1). unfold try_catch_finally, try_catch in Ht.
      unfold bind at 1 in Ht. exact Ht.
  - apply grows_runner_handler.
  - apply grows_page_handler.
Qed.

End RunnerBatch.

Section Awaits.
Variable E : Env.

Lemma await_impersonateUser_eq p v t w :
  await_impersonateUser E p v t w =
  match impersonateUser E (calls (record_call (CallImpersonate p v t) w)) with
  | inl e => (inl e, record_call (CallImpersonate p v t) w)
  | inr o => (inr o, record_call (CallImpersonate p v t) w)
  end.
Proof.
  unfold await_impersonateUser, call, bind.
  destruct (impersonateUser E _); reflexivity.
Qed.

Lemma await_fetch_eq u b w :
  await_fetch E u b w =
  match fetch E (calls (record_call (CallFetch u b) w)) with
  | inl e => (inl e, record_call (CallFetch u b) w)
  | inr o => (inr o, record_call (CallFetch u b) w)
  end.
Proof.
  unfold await_fetch, call, bind. destruct (fetch E _); reflexivity.
Qed.

Lemma await_runs_insert_eq sid v pid uid link state w :
  await_runs_insert E sid v pid uid link state w =
  match runs_insert E (calls (record_call (CallInsertRun sid v pid uid link state) w)) with
  | InsertOk new_id =>
      (inr (InsertOk new_id),
       add_run (Run.mk new_id sid v pid uid link state)
               (record_call (CallInsertRun sid v pid uid link state) w))
  | InsertError m =>
      (inr (InsertError m), record_call (CallInsertRun sid v pid uid link state) w)
  end.
Proof.
  unfold await_runs_insert, call, bind. destruct (runs_insert E _); reflexivity.
Qed.

Lemma await_addRun_eq sid v pid uid w :
  await_addRun E sid v pid uid w =
  match addRun_mutateAsync E
          (calls (record_call (CallInsertRun sid v pid uid JS.Undefined None) w)) with
  | inr new_id =>
      (inr (Run.mk new_id sid v pid uid JS.Undefined None),
       add_run (Run.mk new_id sid v pid uid JS.Undefined None)
               (record_call (CallInsertRun sid v pid uid JS.Undefined None) w))
  | inl e => (inl e, record_call (CallInsertRun sid v pid uid JS.Undefined None) w)
  end.
Proof.
  unfold await_addRun, call, bind. destruct (addRun_mutateAsync E _); reflexivity.
Qed.

Lemma await_addResult_eq rid rvid evs v w :
  await_addResult E rid rvid evs v w =
  match addResult_mutateAsync E (calls (record_call (CallInsertResult rid rvid) w)) with
  | inr new_id =>
      (inr tt, add_result (StoredResult.mk new_id rid rvid evs v)
                          (record_call (CallInsertResult rid rvid) w))
  | inl e => (inl e, record_call (CallInsertResult rid rvid) w)
  end.
Proof.
  unfold await_addResult, call, bind. destruct (addResult_mutateAsync E _); reflexivity.
Qed.

(** *** The successful path of [BenchmarkRunner] *)

Lemma runner_body_ok props token sid sc s w :
  runner_collaborators_succeed E ->
  find_scenario (BenchmarkRunner.scenarios props) sid = Some sc ->
  BenchmarkRunner.session props = Some s ->
  exists row w',
    BenchmarkRunner.scenario_body E props token sid w = (inr tt, w') /\
    runs w' = runs w ++ [row] /\
    results w' = results w /\
    Run.scenario_id row = sid /\
    Run.state row = Some "paused"%string.
Proof.
  intros (Himp & Hfetch & Hins & Hrpc) Hfind Hsess.
  rewrite runner_body_eq. unfold BenchmarkRunner.create_run.
  rewrite Hfind, Hsess. unfold scenario_prop, session_user, bind, ret.
  rewrite await_impersonateUser_eq.
  match goal with |- context [impersonateUser E ?h] =>
    destruct (Himp h) as (pid & ir & ms & ->) end.
  rewrite await_fetch_eq.
  match goal with |- context [fetch E ?h] =>
    destruct (Hfetch h) as (stx & fields & ->) end.
  cbn [ok negb json]. unfold lift, JS.get. cbv beta iota zeta. unfold ret.
  rewrite await_runs_insert_eq.
  match goal with |- context [runs_insert E ?h] =>
    destruct (Hins h) as (new_id & ->) end.
  cbn [fst snd]. rewrite runner_start_run_eq.
  match goal with |- context [start_paused_run E ?h] =>
    destruct (Hrpc h) as (d & ->) end.
  eexists _, _. split; [reflexivity|]. cbn. auto.
Qed.

Lemma runner_loop_ok props token s sel w :
  runner_collaborators_succeed E ->
  Forall (fun sid => is_Some (find_scenario (BenchmarkRunner.scenarios props) sid)) sel ->
  BenchmarkRunner.session props = Some s ->
  exists w',
    for_of sel (BenchmarkRunner.scenario_body E props token) w = (inr tt, w') /\
    one_paused_run_each sel w w'.
Proof.
  intros HE Hall Hsess. revert w.
  induction Hall as [|sid sel [sc Hfind] Hall IH]; intros w.
  - exists w. split; [reflexivity|]. exists []. rewrite app_nil_r. auto.
  - destruct (runner_body_ok props token sid sc s w HE Hfind Hsess)
      as (row & w1 & Hbody & Hruns & Hres & Hsid & Hstate).
    destruct (IH w1) as (w' & Hloop & new_runs & Hruns' & Hres' & Hids & Hstates).
    exists w'. split.
    + rewrite (for_of_cons_ok _ _ _ _ _ Hbody). exact Hloop.
    + exists (row :: new_runs).
      split; [rewrite Hruns', Hruns, <- app_assoc; reflexivity|].
      split; [congruence|].
      split; [rewrite fmap_cons, Hsid, Hids; reflexivity|].
      constructor; assumption.
Qed.

(** *** [StartBenchmark] on scenario rows without [reviewers] *)

Lemma page_body_without_reviewers st sid sc s w :
  page_collaborators_succeed E ->
  find_scenario (StartBenchmark.scenarios st) sid = Some sc ->
  Scenario.reviewers sc = None ->
  StartBenchmark.session st = Some s ->
  exists row calls',
    StartBenchmark.scenario_body E st sid w =
    (inl (JS.TypeError "scenario.reviewers is not iterable"),
     mkWorld (runs w ++ [row]) (results w) calls' (toasts w) (console w)
             (navigations w) (isRunning w)) /\
    Run.scenario_id row = sid.
Proof.
  intros (Himp & HaddRun & _) Hfind Hnone Hsess.
  unfold StartBenchmark.scenario_body. rewrite Hfind, Hsess.
  unfold scenario_prop, session_user. unfold bind at 1. unfold ret at 1.
  unfold bind at 1. rewrite await_impersonateUser_eq.
  match goal with |- context [impersonateUser E ?h] =>
    destruct (Himp h) as (evs & pid & -> & Hpid & Hne) end.
  unfold bind at 1. unfold ret at 1. rewrite Hpid.
  destruct pid as [|a pid]; [congruence|].
  unfold bind at 1. unfold ret at 1. unfold bind at 1.
  rewrite await_addRun_eq.
  match goal with |- context [addRun_mutateAsync E ?h] =>
    destruct (HaddRun h) as (new_id & ->) end.
  unfold bind at 1. unfold scenario_reviewers. rewrite Hnone.
  eexists _, _. split; reflexivity.
Qed.

End Awaits.

Lemma page_handler_nonempty E st w :
  StartBenchmark.selectedScenarios st <> [] ->
  StartBenchmark.handleStartBenchmark E st w =
  try_catch_finally (StartBenchmark.batch E st) StartBenchmark.on_error
                    (setIsRunning false) (started w).
Proof.
  intros Hsel. unfold StartBenchmark.handleStartBenchmark.
  destruct (StartBenchmark.selectedScenarios st); [congruence | reflexivity].
Qed.

Lemma page_try_eq E st w :
  try_catch_finally (StartBenchmark.batch E st) StartBenchmark.on_error
                    (setIsRunning false) w =
  match for_of (StartBenchmark.selectedScenarios st) (StartBenchmark.scenario_body E st) w with
  | (inl e, w') =>
      (inr tt,
       set_running false
         (add_toast (ToastError "An error occurred while running the benchmark. Please try again.")
            (add_console "Error running benchmark:" e w')))
  | (inr _, w') =>
      (inr tt,
       set_running false
         (add_navigation "/"
            (add_toast (ToastSuccess "All benchmarks completed successfully!") w')))
  end.
Proof.
  unfold try_catch_finally, try_catch, StartBenchmark.batch, bind.
  destruct (for_of _ _ w) as [[e|[]] w']; reflexivity.
Qed.

Lemma one_paused_run_each_frame sel w0 w w' w1 :
  runs w0 = runs w -> results w0 = results w ->
  runs w1 = runs w' -> results w1 = results w' ->
  one_paused_run_each sel w w' -> one_paused_run_each sel w0 w1.
Proof.
  intros H1 H2 H3 H4 (new_runs & Hr & Hs & Hrest).
  exists new_runs. rewrite H1, H2, H3, H4. auto.
Qed.

(** C1 (amended): for a non-empty selection of loaded scenario ids, a
    signed-in user, a valid credential and collaborators that always
    succeed, [BenchmarkRunner] writes exactly one Run row, in state
    ["paused"], per selected scenario, in input order, and no Result row. *)
Theorem runner_persists_one_paused_run_each E sel v scs s us token w :
  let props := BenchmarkRunner.mkProps sel v scs (Some s) us in
  sel <> [] ->
  Forall (fun sid => is_Some (find_scenario scs sid)) sel ->
  resolve_token E us = Some token ->
  runner_collaborators_succeed E ->
  fst (BenchmarkRunner.handleStartBenchmark E props w) = inr tt /\
  one_paused_run_each sel w (snd (BenchmarkRunner.handleStartBenchmark E props w)).
Proof.
  intros props Hsel Hall Htok HE.
  rewrite (runner_handler_checked E props token w Hsel Htok).
  destruct (runner_loop_ok E props token s sel (started w) HE Hall eq_refl)
    as (w' & Hloop & Hrows).
  unfold try_catch, BenchmarkRunner.batch, bind.
  change (BenchmarkRunner.selectedScenarios props) with sel. rewrite Hloop.
  split; [reflexivity|].
  eapply one_paused_run_each_frame; [| | | |exact Hrows]; reflexivity.
Qed.

Lemma credential_check_outcome E props w :
  BenchmarkRunner.selectedScenarios props <> [] ->
  resolve_token E (BenchmarkRunner.userSecrets props) = None ->
  (exists text, text ∈ configuration_errors /\
     BenchmarkRunner.handleStartBenchmark E props w = (inr tt, add_toast (ToastError text) w)) \/
  (exists e, BenchmarkRunner.handleStartBenchmark E props w = (inl e, w)).
Proof.
  intros Hsel Htok. unfold BenchmarkRunner.handleStartBenchmark, resolve_token in *.
  destruct (BenchmarkRunner.selectedScenarios props) as [|x l]; [congruence|].
  unfold configuration_errors.
  destruct (BenchmarkRunner.userSecrets props) as [[|first rest]|].
  - left. eexists. split; [|reflexivity]. set_solver.
  - destruct (JSON_parse E (secret first)) as [secrets|].
    + destruct (JS.get secrets "GPT_ENGINEER_TEST_TOKEN") as [e|t] eqn:Hget.
      * right. exists e. cbv [bind lift ret throw]. rewrite Hget. reflexivity.
      * destruct (JS.truthy t) eqn:Htruthy; [discriminate|].
        left. eexists. split;
          [|cbv [bind lift ret throw]; rewrite Hget, Htruthy; reflexivity].
        set_solver.
    + right. eexists. reflexivity.
  - left. eexists. split; [|reflexivity]. set_solver.
Qed.

(** C5: when no truthy [GPT_ENGINEER_TEST_TOKEN] can be read from the
    user secrets, [BenchmarkRunner] issues no call and leaves the tables
    and the running flag as they were, whatever the selection.  On an
    empty selection it shows the validation error.  On a non-empty one it
    shows a configuration error when there is no secret row or the parsed
    secret holds no truthy token; but when the text of the first secret
    does not parse, or parses to [null], the handler throws before the
    [try] block and nothing is shown, where a configuration error is
    expected. *)
Theorem unreadable_credential_is_not_reported E props w :
  resolve_token E (BenchmarkRunner.userSecrets props) = None ->
  let r := BenchmarkRunner.handleStartBenchmark E props w in
  (calls (snd r) = calls w /\ runs (snd r) = runs w /\
   results (snd r) = results w /\ isRunning (snd r) = isRunning w) /\
  match BenchmarkRunner.selectedScenarios props,
        credential_read_error E (BenchmarkRunner.userSecrets props) with
  | [], _ =>
      r = (inr tt, add_toast (ToastError "Please select at least one scenario to run.") w)
  | _ :: _, None =>
      r = (inr tt,
           add_toast (ToastError (configuration_error (BenchmarkRunner.userSecrets props))) w)
  | _ :: _, Some e => r = (inl e, w)
  end.
Proof.
  intros Htok r. subst r.
  unfold BenchmarkRunner.handleStartBenchmark, resolve_token, credential_read_error,
    configuration_error in *.
  destruct (BenchmarkRunner.selectedScenarios props) as [|x l]; [repeat split|].
  destruct (BenchmarkRunner.userSecrets props) as [[|first rest]|]; [repeat split| |repeat split].
  destruct (JSON_parse E (secret first)) as [secrets|]; [|repeat split].
  cbv [bind lift ret throw].
  destruct (JS.get secrets "GPT_ENGINEER_TEST_TOKEN") as [e|t]; [repeat split|].
  destruct (JS.truthy t); [discriminate | repeat split].
Qed.

(** C4: on an empty selection both handlers show the validation error
    and return; no call is issued, the tables and the running flag are
    unchanged. *)
Theorem empty_selection_is_rejected E v scs sess us w :
  let notice := ToastError "Please select at least one scenario to run." in
  BenchmarkRunner.handleStartBenchmark E (BenchmarkRunner.mkProps [] v scs sess us) w
  = (inr tt, add_toast notice w) /\
  StartBenchmark.handleStartBenchmark E (StartBenchmark.mkState [] v scs sess) w
  = (inr tt, add_toast notice w) /\
  calls (add_toast notice w) = calls w /\
  runs (add_toast notice w) = runs w /\
  results (add_toast notice w) = results w /\
  isRunning (add_toast notice w) = isRunning w /\
  toasts (add_toast notice w) = toasts w ++ [notice].
Proof. intros notice. repeat split. Qed.

(** The example of the specification: selection [s1, s2], project [p1],
    the procedure answers [true]; two paused runs, two notifications of
    success and the final one. *)
Example runner_spec_example :
  let r := BenchmarkRunner.handleStartBenchmark stub_env runner_props empty_world in
  fst r = inr tt /\
  Run.scenario_id <$> runs (snd r) = ["s1"; "s2"]%string /\
  Run.project_id <$> runs (snd r) = [Some "p1"; Some "p1"]%string /\
  toasts (snd r) =
    [ToastSuccess "Benchmark started for scenario: Todo app";
     ToastSuccess "Benchmark started for scenario: Blog";
     ToastSuccess "All benchmarks started successfully!"].
Proof. vm_compute. auto. Qed.

Lemma stub_env_runner_succeeds : runner_collaborators_succeed stub_env.
Proof. repeat split; intros h; repeat eexists. Qed.

Lemma stub_env_events_page_succeeds : page_collaborators_succeed stub_env_events.
Proof.
  split; [|split]; intros h.
  - exists [mkEvent "message" None; mkEvent "project_created" (Some "p1"%string)], "p1"%string.
    split; [reflexivity|]. split; [reflexivity | discriminate].
  - eexists; reflexivity.
  - eexists; reflexivity.
Qed.

Lemma example_selection_found :
  Forall (fun sid => is_Some (find_scenario [scenario_s1; scenario_s2] sid))
         ["s1"; "s2"]%string.
Proof. repeat constructor; eexists; reflexivity. Qed.

(** [BenchmarkRunner] over the two example scenarios. *)
Lemma runner_persists_one_paused_run_each_witness :
  fst (BenchmarkRunner.handleStartBenchmark stub_env runner_props empty_world) = inr tt /\
  one_paused_run_each ["s1"; "s2"]%string empty_world
    (snd (BenchmarkRunner.handleStartBenchmark stub_env runner_props empty_world)).
Proof.
  apply (runner_persists_one_paused_run_each stub_env
           ["s1"; "s2"]%string "http://localhost:8000" [scenario_s1; scenario_s2]
           (mkSession "u1") (Some [mkSecret "token"]) (JS.String "t0k3n") empty_world).
  - discriminate.
  - exact example_selection_found.
  - reflexivity.
  - exact stub_env_runner_succeeds.
Defined.

(** [BenchmarkRunner] over two scenarios, the first with two reviewers,
    with collaborators that succeed and a valid credential: two Run rows
    and no Result row. *)
Lemma runner_persists_no_result_rows :
  runner_collaborators_succeed stub_env /\
  resolve_token stub_env (BenchmarkRunner.userSecrets runner_props) = Some (JS.String "t0k3n") /\
  ~ one_run_and_results_each [scenario_s1; scenario_s2] ["s1"; "s2"]%string empty_world
      (snd (BenchmarkRunner.handleStartBenchmark stub_env runner_props empty_world)).
Proof.
  split; [exact stub_env_runner_succeeds|]. split; [reflexivity|].
  intros (new_runs & new_results & Hruns & Hres & Hids & Hrefs).
  vm_compute in Hres. destruct new_results; [|discriminate Hres].
  vm_compute in Hruns. subst new_runs.
  vm_compute in Hrefs. discriminate Hrefs.
Qed.

(** A secret whose text is not JSON. *)
Lemma unreadable_credential_is_not_reported_witness :
  resolve_token stub_env (BenchmarkRunner.userSecrets runner_props_bad_secret) = None /\
  BenchmarkRunner.handleStartBenchmark stub_env runner_props_bad_secret empty_world =
  (inl (JS.SyntaxError "JSON.parse"), empty_world).
Proof.
  exact (conj eq_refl
           (proj2 (unreadable_credential_is_not_reported stub_env runner_props_bad_secret
                     empty_world eq_refl))).
Defined.

(** The selection [s1, zz, s2], where [zz] is not loaded. *)
Lemma missing_scenario_aborts_batch_witness :
  resolve_token stub_env (Some [mkSecret "token"]) = Some example_token /\
  find_scenario [scenario_s1; scenario_s2] "zz" = None /\
  (let props := BenchmarkRunner.mkProps ["s1"; "zz"; "s2"]%string "http://localhost:8000"
                  [scenario_s1; scenario_s2] (Some (mkSession "u1")) (Some [mkSecret "token"]) in
   let r := BenchmarkRunner.handleStartBenchmark stub_env props empty_world in
   fst r = inr tt /\
   runs (snd r) = runs (after_first_scenario stub_env) /\
   results (snd r) = results (after_first_scenario stub_env) /\
   calls (snd r) = calls (after_first_scenario stub_env) /\
   console (snd r) =
     console (after_first_scenario stub_env) ++
     [("Error starting benchmark:"%string,
       JS.TypeError "Cannot read properties of undefined (reading 'prompt')")] /\
   isRunning (snd r) = false).
Proof.
  assert (H1 : resolve_token stub_env (Some [mkSecret "token"]) = Some example_token)
    by reflexivity.
  assert (H2 : find_scenario [scenario_s1; scenario_s2] "zz" = None) by reflexivity.
  exact (conj H1 (conj H2
    (missing_scenario_aborts_batch stub_env "http://localhost:8000"
       [scenario_s1; scenario_s2] (Some (mkSession "u1")) (Some [mkSecret "token"])
       example_token ["s1"%string] "zz" ["s2"%string] empty_world H1 H2))).
Defined.

(** The selection [s1, s2, s1] against a target system that answers 404
    from the second scenario on. *)
Lemma fetch_failure_aborts_batch_witness :
  let E := stub_env_fetch_fails_later in
  let w1 := after_first_scenario E in
  let c1 := CallImpersonate "Build a blog" "http://localhost:8000" (Some (of_decimal 7 1)) in
  let c2 := CallFetch "http://localhost:8000/projects/p1" example_token in
  let props := BenchmarkRunner.mkProps ["s1"; "s2"; "s1"]%string "http://localhost:8000"
                 [scenario_s1; scenario_s2] (Some (mkSession "u1")) (Some [mkSecret "token"]) in
  let r := BenchmarkRunner.handleStartBenchmark E props empty_world in
  fst r = inr tt /\
  console (snd r) =
    console w1 ++ [("Error starting benchmark:"%string,
                    JS.Error "Failed to fetch project details: Not Found")] /\
  runs (snd r) = runs w1 /\
  results (snd r) = results w1 /\
  calls (snd r) = calls w1 ++ [c1; c2] /\
  isRunning (snd r) = false.
Proof.
  exact (fetch_failure_aborts_batch stub_env_fetch_fails_later "http://localhost:8000"
           [scenario_s1; scenario_s2] (Some (mkSession "u1")) (Some [mkSecret "token"])
           example_token ["s1"%string] "s2" ["s1"%string] empty_world
           (after_first_scenario stub_env_fetch_fails_later) scenario_s2
           (Flat "p1" JS.Undefined JS.Undefined)
           (mkResponse false "Not Found" (inl (JS.SyntaxError "Unexpected token")))
           eq_refl eq_refl eq_refl eq_refl eq_refl eq_refl).
Defined.

(** The procedure answers [null] for the first scenario: a warning, and
    the batch goes on with [s2]. *)
Lemma start_reply_warns_or_aborts_witness :
  let E := stub_env_not_started in
  let props := runner_props in
  let rest := BenchmarkRunner.mkProps ["s2"%string] "http://localhost:8000"
                [scenario_s1; scenario_s2] (Some (mkSession "u1")) (Some [mkSecret "token"]) in
  let w3 := record_call (CallStartPausedRun "run-s1") (after_first_insert E) in
  BenchmarkRunner.handleStartBenchmark E props empty_world =
  try_catch (BenchmarkRunner.batch E rest example_token) BenchmarkRunner.on_error
    (add_toast (ToastWarning "Benchmark created but not started for scenario: Todo app") w3).
Proof.
  exact (start_reply_warns_or_aborts stub_env_not_started "http://localhost:8000"
           [scenario_s1; scenario_s2] (Some (mkSession "u1")) (Some [mkSecret "token"])
           example_token [] "s1" ["s2"%string] empty_world (started empty_world)
           scenario_s1 "run-s1" (after_first_insert stub_env_not_started)
           eq_refl eq_refl eq_refl).
Defined.

(** After the successful batch over [s1, s2] the flag is set and a click
    is ignored. *)
Lemma running_flag_stays_set_after_success_witness :
  let r := BenchmarkRunner.handleStartBenchmark stub_env runner_props empty_world in
  fst r = inr tt /\
  isRunning (snd r) = true /\
  BenchmarkRunner.Button_disabled (snd r) = true /\
  BenchmarkRunner.onClick stub_env runner_props (snd r) = (inr tt, snd r).
Proof.
  assert (H1 : BenchmarkRunner.selectedScenarios runner_props <> []) by discriminate.
  exact (running_flag_stays_set_after_success stub_env runner_props example_token empty_world H1 eq_refl).
Defined.

(** * Part III: further properties of the handlers, the selection and the aggregation *)

(** ** The selection of scenarios *)

Lemma toggle_elem (scenarioId x : string) (prev : list string) :
  x ∈ handleScenarioToggle scenarioId prev <->
  if decide (x = scenarioId) then scenarioId ∉ prev else x ∈ prev.
Proof.
  unfold handleScenarioToggle. case_bool_decide as Hin.
  - rewrite list_elem_of_filter. destruct (decide (x = scenarioId)) as [->|Hne]; tauto.
  - rewrite elem_of_app, list_elem_of_singleton.
    destruct (decide (x = scenarioId)) as [->|Hne]; tauto.
Qed.

Lemma toggle_NoDup (scenarioId : string) (prev : list string) :
  NoDup prev -> NoDup (handleScenarioToggle scenarioId prev).
Proof.
  intros Hnd. unfold handleScenarioToggle. case_bool_decide as Hin.
  - apply NoDup_filter. exact Hnd.
  - apply NoDup_app. split; [exact Hnd|]. split; [|apply NoDup_singleton].
    intros x Hx Hx'. apply list_elem_of_singleton in Hx'. subst x. contradiction.
Qed.

Lemma filter_ne_id (scenarioId : string) (l : list string) :
  scenarioId ∉ l -> filter (fun id => id <> scenarioId) l = l.
Proof.
  induction l as [|x l IH]; intros Hnot; [reflexivity|].
  rewrite filter_cons. apply not_elem_of_cons in Hnot. destruct Hnot as [Hne Hl].
  rewrite decide_True by congruence. rewrite IH by exact Hl. reflexivity.
Qed.

Lemma foldl_toggle_NoDup (prev clicks : list string) :
  NoDup prev ->
  NoDup (foldl (fun prev scenarioId => handleScenarioToggle scenarioId prev) prev clicks).
Proof.
  intros Hnd. induction clicks as [|c clicks IH] using rev_ind.
  - exact Hnd.
  - rewrite foldl_snoc. apply toggle_NoDup. exact IH.
Qed.

(** X1: whatever checkboxes are clicked, in whatever order, the selection
    built by [handleScenarioToggle] from the initial [[]] never holds a
    scenario id twice. *)
Theorem selection_has_no_duplicates (clicks : list string) :
  NoDup (selection_after clicks).
Proof. apply foldl_toggle_NoDup. apply NoDup_nil_2. Qed.

(** X2: after any series of clicks a scenario id is in the selection
    exactly when its checkbox was clicked an odd number of times. *)
Theorem selected_iff_odd_clicks (clicks : list string) (scenarioId : string) :
  bool_decide (scenarioId ∈ selection_after clicks) =
  Nat.odd (length (filter (fun c => c = scenarioId) clicks)).
Proof.
  unfold selection_after. induction clicks as [|c clicks IH] using rev_ind.
  - reflexivity.
  - rewrite foldl_snoc, filter_app, length_app, filter_cons, filter_nil.
    set (sel := foldl _ [] clicks) in *.
    pose proof (toggle_elem c scenarioId sel) as Ht.
    destruct (decide (c = scenarioId)) as [->|Hne].
    + rewrite decide_True in Ht by reflexivity. simpl length.
      rewrite Nat.add_1_r, Nat.odd_succ, <- Nat.negb_odd, <- IH.
      destruct (bool_decide (scenarioId ∈ sel)) eqn:E.
      * apply bool_decide_eq_true_1 in E. apply bool_decide_eq_false_2. tauto.
      * apply bool_decide_eq_false_1 in E. apply bool_decide_eq_true_2. tauto.
    + rewrite decide_False in Ht by congruence. simpl length.
      rewrite Nat.add_0_r, <- IH. apply bool_decide_ext. exact Ht.
Qed.

(** X3: toggling the same scenario twice in a row gives the selection back
    when the id was not selected; when it was, the id stays selected but
    moves to the end of the selection, and so of the order of the runs. *)
Theorem toggle_twice (scenarioId : string) (prev : list string) :
  handleScenarioToggle scenarioId (handleScenarioToggle scenarioId prev) =
  if decide (scenarioId ∈ prev)
  then filter (fun id => id <> scenarioId) prev ++ [scenarioId]
  else prev.
Proof.
  destruct (decide (scenarioId ∈ prev)) as [Hin|Hnot].
  - unfold handleScenarioToggle at 2. rewrite bool_decide_eq_true_2 by exact Hin.
    unfold handleScenarioToggle. rewrite bool_decide_eq_false_2; [reflexivity|].
    rewrite list_elem_of_filter. tauto.
  - unfold handleScenarioToggle at 2. rewrite bool_decide_eq_false_2 by exact Hnot.
    unfold handleScenarioToggle. rewrite bool_decide_eq_true_2.
    + rewrite filter_app, filter_cons, filter_nil, decide_False by tauto.
      rewrite app_nil_r. apply filter_ne_id. exact Hnot.
    + apply elem_of_app. right. apply list_elem_of_singleton. reflexivity.
Qed.

(** ** The system version *)

Lemma string_length_app (s1 s2 : string) :
  String.length (s1 +:+ s2) = (String.length s1 + String.length s2)%nat.
Proof. induction s1 as [|a s1 IH]; simpl; [reflexivity | rewrite IH; reflexivity]. Qed.

Lemma not_own_http_prefix (v : string) : v <> ("http://" +:+ v)%string.
Proof.
  intros H. apply (f_equal String.length) in H.
  rewrite string_length_app in H. simpl in H. lia.
Qed.

(** X4: the initial [systemVersion] is one of the values that the [Select]
    offers exactly when [VITE_SYSTEM_VERSION] is unset, empty, or the
    default ["http://localhost:8000"] itself; for any other setting the
    select offers ["http://" + setting] while the state holds the bare
    setting. *)
Theorem initial_version_offered_iff (VITE_SYSTEM_VERSION : option string) :
  initial_systemVersion VITE_SYSTEM_VERSION ∈ SelectItem_values VITE_SYSTEM_VERSION <->
  VITE_SYSTEM_VERSION = None \/ VITE_SYSTEM_VERSION = Some ""%string \/
  VITE_SYSTEM_VERSION = Some "http://localhost:8000"%string.
Proof.
  unfold initial_systemVersion, SelectItem_values.
  destruct VITE_SYSTEM_VERSION as [v|].
  - destruct (decide (v = ""%string)) as [->|Hne].
    + split; [auto|]. intros _. apply list_elem_of_here.
    + rewrite elem_of_cons, list_elem_of_singleton. split.
      * intros [->|H]; [auto|]. destruct (not_own_http_prefix v H).
      * intros [H|[H|H]]; try discriminate; [congruence|]. left. congruence.
  - split; [auto|]. intros _. apply list_elem_of_here.
Qed.

(** ** What the handlers add to the world, whatever the collaborators do *)

Lemma find_scenario_elem scs sid sc :
  find_scenario scs sid = Some sc -> sc ∈ scs /\ Scenario.id sc = sid.
Proof.
  unfold find_scenario. intros H. apply find_some in H. destruct H as [Hin Hid].
  split; [apply list_elem_of_In; exact Hin|].
  apply bool_decide_eq_true_1 in Hid. exact Hid.
Qed.

Lemma started_ids_app cs cs' : started_ids (cs ++ cs') = started_ids cs ++ started_ids cs'.
Proof. unfold started_ids. apply omap_app. Qed.

Ltac progress_with cs ts rs :=
  exists cs, ts, rs; cbn;
  rewrite <- ?app_assoc, ?app_nil_r; cbn;
  repeat match goal with
         | |- _ /\ _ => split
         | |- _ = _ => reflexivity
         | |- Forall _ [] => apply Forall_nil_2
         | |- Forall _ (_ :: _) => apply Forall_cons_2; [assumption|]
         | |- [] `prefix_of` _ => apply prefix_nil
         | |- ?l `prefix_of` ?l => reflexivity
         | |- _ -> _ => intros ?; first [discriminate | reflexivity]
         end.

Ltac leaf H cs ts rs :=
  cbn in H; injection H as <- <-; progress_with cs ts rs.

Section RunnerProgress.
Variable E : Env.
Variable props : BenchmarkRunner.Props.
Variable token : JS.value.

Lemma runner_body_progress sid w r w' :
  BenchmarkRunner.scenario_body E props token sid w = (r, w') ->
  runner_progress props token [sid] r w w'.
Proof.
  intros H. rewrite runner_body_eq in H. unfold BenchmarkRunner.create_run in H.
  destruct (find_scenario (BenchmarkRunner.scenarios props) sid) as [sc|] eqn:Hfind.
  2:{ leaf H (@nil Call) (@nil Toast) (@nil Run.t). }
  destruct (find_scenario_elem _ _ _ Hfind) as [Hin Hid].
  unfold scenario_prop, bind, ret in H. rewrite await_impersonateUser_eq in H.
  set (c1 := CallImpersonate _ _ _) in H.
  assert (Hc1 : runner_call_ok props token c1) by (split; [reflexivity|]; eauto).
  destruct (impersonateUser E (calls (record_call c1 w))) as [e|outcome].
  { leaf H [c1] (@nil Toast) (@nil Run.t). }
  rewrite await_fetch_eq in H. set (c2 := CallFetch _ _) in H.
  assert (Hc2 : runner_call_ok props token c2) by (split; [reflexivity|]; eauto).
  destruct (fetch E (calls (record_call c2 (record_call c1 w)))) as [e|resp].
  { leaf H [c1; c2] (@nil Toast) (@nil Run.t). }
  destruct (ok resp); cbn [negb] in H.
  2:{ leaf H [c1; c2] (@nil Toast) (@nil Run.t). }
  destruct (json resp) as [e|projectData].
  { leaf H [c1; c2] (@nil Toast) (@nil Run.t). }
  cbn [lift] in H. unfold ret at 1 in H.
  destruct (JS.get projectData "link") as [e|projectLink].
  { leaf H [c1; c2] (@nil Toast) (@nil Run.t). }
  cbn [lift] in H. unfold ret at 1 in H. unfold session_user in H.
  destruct (BenchmarkRunner.session props) as [[uid]|] eqn:Hsess.
  2:{ leaf H [c1; c2] (@nil Toast) (@nil Run.t). }
  unfold ret at 1 in H. cbn [session_user_id] in H. rewrite await_runs_insert_eq in H.
  set (c3 := CallInsertRun _ _ _ _ _ _) in H.
  assert (Hc3 : runner_call_ok props token c3).
  { unfold c3. cbn. rewrite Hfind. eauto. }
  destruct (runs_insert E (calls (record_call c3 (record_call c2 (record_call c1 w)))))
    as [new_id|message].
  2:{ leaf H [c1; c2; c3] (@nil Toast) (@nil Run.t). }
  cbn [fst snd] in H. rewrite runner_start_run_eq in H.
  set (row := Run.mk _ _ _ _ _ _ _) in H.
  assert (Hrow : runner_row_ok props row).
  { unfold runner_row_ok, row. cbn. rewrite Hfind. eauto. }
  set (c4 := CallStartPausedRun new_id) in H.
  assert (Hc4 : runner_call_ok props token c4) by exact I.
  destruct (start_paused_run E _) as [startedRun|message].
  - set (t := if JS.truthy startedRun then _ else _) in H.
    assert (Ht : is_error_toast t = false)
      by (unfold t; destruct (JS.truthy startedRun); reflexivity).
    leaf H [c1; c2; c3; c4] [t] [row].
  - leaf H [c1; c2; c3; c4] (@nil Toast) [row].
Qed.

End RunnerProgress.

Section RunnerLoop.
Variable E : Env.
Variable props : BenchmarkRunner.Props.
Variable token : JS.value.

Lemma runner_progress_nil w : runner_progress props token [] (inr tt) w w.
Proof. progress_with (@nil Call) (@nil Toast) (@nil Run.t). Qed.

Lemma runner_progress_throw sid sids e w w1 :
  runner_progress props token [sid] (inl e) w w1 ->
  runner_progress props token (sid :: sids) (inl e) w w1.
Proof.
  intros (cs & ts & rs & Hc & Ht & Hr & Hres & Hn & Hco & Hf & Hcs & Hts & Hrs & Hid & Hpre & _).
  exists cs, ts, rs. repeat split; try assumption; [|discriminate].
  etrans; [exact Hpre|]. apply (prefix_app_r [sid] [sid] sids). reflexivity.
Qed.

Lemma runner_progress_step sid sids r w w1 w2 :
  runner_progress props token [sid] (inr tt) w w1 ->
  runner_progress props token sids r w1 w2 ->
  runner_progress props token (sid :: sids) r w w2.
Proof.
  intros (cs & ts & rs & Hc & Ht & Hr & Hres & Hn & Hco & Hf & Hcs & Hts & Hrs & Hid & _ & Hall)
         (cs' & ts' & rs' & Hc' & Ht' & Hr' & Hres' & Hn' & Hco' & Hf' & Hcs' & Hts' & Hrs'
            & Hid' & Hpre' & Hall').
  specialize (Hall eq_refl).
  exists (cs ++ cs'), (ts ++ ts'), (rs ++ rs').
  rewrite Hc', Hc, Ht', Ht, Hr', Hr, Hres', Hres, Hn', Hn, Hco', Hco, Hf', Hf.
  rewrite <- !app_assoc, !fmap_app, started_ids_app, Hid, Hid', Hall.
  repeat split; try reflexivity.
  - apply Forall_app_2; assumption.
  - apply Forall_app_2; assumption.
  - apply Forall_app_2; assumption.
  - apply (prefix_app [sid]). exact Hpre'.
  - intros Hok. rewrite (Hall' Hok). reflexivity.
Qed.

Lemma runner_loop_progress sids w r w' :
  for_of sids (BenchmarkRunner.scenario_body E props token) w = (r, w') ->
  runner_progress props token sids r w w'.
Proof.
  revert w. induction sids as [|sid sids IH]; intros w H.
  - injection H as <- <-. apply runner_progress_nil.
  - destruct (BenchmarkRunner.scenario_body E props token sid w) as [[e|[]] w1] eqn:Hb.
    + rewrite (for_of_cons_throw _ _ _ _ _ _ Hb) in H. injection H as <- <-.
      apply runner_progress_throw. apply (runner_body_progress E). exact Hb.
    + rewrite (for_of_cons_ok _ _ _ _ _ Hb) in H.
      eapply runner_progress_step; [apply (runner_body_progress E); exact Hb|].
      apply IH. exact H.
Qed.

End RunnerLoop.

(** What a click on the button leaves behind, case by case: the handler
    throws while reading the credential and changes nothing; or it shows
    one of the three configuration errors and changes nothing else; or it
    sets the flag, runs the loop and closes with the success notification
    or with the [catch] block. *)
Lemma runner_handler_cases E props w :
  (exists e,
     BenchmarkRunner.selectedScenarios props <> [] /\
     resolve_token E (BenchmarkRunner.userSecrets props) = None /\
     BenchmarkRunner.handleStartBenchmark E props w = (inl e, w)) \/
  (exists text,
     (BenchmarkRunner.selectedScenarios props = [] \/
      resolve_token E (BenchmarkRunner.userSecrets props) = None) /\
     text ∈ take 3 runner_error_texts /\
     BenchmarkRunner.handleStartBenchmark E props w = (inr tt, add_toast (ToastError text) w)) \/
  (exists token rl wl,
     BenchmarkRunner.selectedScenarios props <> [] /\
     resolve_token E (BenchmarkRunner.userSecrets props) = Some token /\
     runner_progress props token (BenchmarkRunner.selectedScenarios props) rl (started w) wl /\
     BenchmarkRunner.handleStartBenchmark E props w =
     (inr tt,
      match rl with
      | inl e =>
          set_running false
            (add_toast (ToastError "An error occurred while starting the benchmark. Please try again.")
               (add_console "Error starting benchmark:" e wl))
      | inr _ => add_toast (ToastSuccess "All benchmarks started successfully!") wl
      end)).
Proof.
  destruct (BenchmarkRunner.selectedScenarios props) as [|sid sids] eqn:Hsel.
  { right; left. eexists. split; [left; reflexivity|]. split; [|unfold BenchmarkRunner.handleStartBenchmark; rewrite Hsel; reflexivity].
    apply list_elem_of_here. }
  assert (Hne : BenchmarkRunner.selectedScenarios props <> []) by (rewrite Hsel; discriminate).
  destruct (resolve_token E (BenchmarkRunner.userSecrets props)) as [token|] eqn:Htok.
  - right; right. exists token.
    destruct (for_of (BenchmarkRunner.selectedScenarios props)
                (BenchmarkRunner.scenario_body E props token) (started w)) as [rl wl] eqn:Hloop.
    exists rl, wl. split; [discriminate|]. split; [reflexivity|]. split.
    + rewrite <- Hsel. eapply runner_loop_progress. exact Hloop.
    + rewrite (runner_handler_checked E props token w Hne Htok).
      unfold try_catch, BenchmarkRunner.batch, bind. rewrite Hloop.
      destruct rl as [e|[]]; reflexivity.
  - destruct (credential_check_outcome E props w Hne Htok) as [(text & Hin & Heq)|(e & Heq)].
    + right; left. exists text. split; [right; reflexivity|]. split; [|exact Heq].
      apply list_elem_of_In in Hin. apply list_elem_of_In. cbn in *. tauto.
    + left. exists e. split; [discriminate|]. split; [reflexivity | exact Heq].
Qed.

(** ** [BenchmarkRunner]: what a click does, whatever the collaborators answer *)

Ltac runner_cases E props w :=
  destruct (runner_handler_cases E props w)
    as [(e0 & Hne & Hnone & Heq)|[(text & Hwhy & Htext & Heq)
       |(token0 & rl & wl & Hne & Htok & (cs & ts & rs & Hc & Ht & Hr & Hres & Hn & Hco & Hf
                                    & Hcs & Hts & Hrs & Hid & Hpre & Hall) & Heq)]];
  rewrite Heq; cbn [fst snd];
  [ | | destruct rl as [err|[]]; cbn;
        rewrite ?Hc, ?Ht, ?Hr, ?Hres, ?Hn, ?Hco, ?Hf; cbn ].

(** X5: whatever the collaborators answer, the run rows that a click of
    [BenchmarkRunner] adds are, in order, for an initial segment of the
    selection; each is for a loaded scenario, carries the chosen system
    version and the id of the signed-in user, and is in state ["paused"]. *)
Theorem runner_rows_follow_selection E props w :
  exists rs,
    runs (snd (BenchmarkRunner.handleStartBenchmark E props w)) = runs w ++ rs /\
    Run.scenario_id <$> rs `prefix_of` BenchmarkRunner.selectedScenarios props /\
    Forall (runner_row_ok props) rs.
Proof.
  runner_cases E props w.
  - exists []. rewrite app_nil_r. split; [reflexivity|]. split; [apply prefix_nil | constructor].
  - exists []. cbn. rewrite app_nil_r. split; [reflexivity|].
    split; [apply prefix_nil | constructor].
  - exists rs. auto.
  - exists rs. auto.
Qed.

(** X6: whatever the collaborators answer, the ids handed to
    [start_paused_run] during a click of [BenchmarkRunner] are, in order,
    the ids of the run rows stored during that click: every stored run is
    asked to start, once, and no other run is. *)
Theorem runner_starts_what_it_stores E props w :
  exists cs rs,
    calls (snd (BenchmarkRunner.handleStartBenchmark E props w)) = calls w ++ cs /\
    runs (snd (BenchmarkRunner.handleStartBenchmark E props w)) = runs w ++ rs /\
    started_ids cs = Run.id <$> rs.
Proof.
  runner_cases E props w.
  - exists [], []. rewrite !app_nil_r. auto.
  - exists [], []. cbn. rewrite !app_nil_r. auto.
  - exists cs, rs. auto.
  - exists cs, rs. auto.
Qed.

(** X7: [BenchmarkRunner] calls a collaborator only once the token is
    read from the first user secret, and every call it issues is of one of
    four kinds: an impersonation with the prompt and temperature of a
    loaded scenario and the chosen system version; a project lookup under
    [systemVersion/projects/] carrying that token; an insert of a paused
    run for a loaded scenario and the signed-in user; the start of a run.
    It never inserts a result. *)
Theorem runner_calls_need_token E props w :
  exists cs,
    calls (snd (BenchmarkRunner.handleStartBenchmark E props w)) = calls w ++ cs /\
    forall c, c ∈ cs ->
      exists token,
        resolve_token E (BenchmarkRunner.userSecrets props) = Some token /\
        runner_call_ok props token c.
Proof.
  runner_cases E props w.
  - exists []. rewrite app_nil_r. split; [reflexivity|]. intros c Hin. inversion Hin.
  - exists []. cbn. rewrite app_nil_r. split; [reflexivity|]. intros c Hin. inversion Hin.
  - exists cs. split; [reflexivity|]. intros c Hin. exists token0. split; [exact Htok|].
    rewrite Forall_forall in Hcs. apply Hcs. exact Hin.
  - exists cs. split; [reflexivity|]. intros c Hin. exists token0. split; [exact Htok|].
    rewrite Forall_forall in Hcs. apply Hcs. exact Hin.
Qed.

(** X8: whatever happens, a click of [BenchmarkRunner] leaves the results
    table and the route of the application as they were. *)
Theorem runner_leaves_results_and_route E props w :
  results (snd (BenchmarkRunner.handleStartBenchmark E props w)) = results w /\
  navigations (snd (BenchmarkRunner.handleStartBenchmark E props w)) = navigations w.
Proof.
  runner_cases E props w; auto.
Qed.



(** X10: [handleStartBenchmark] of [BenchmarkRunner] can only throw while
    it reads the credential (the selection is not empty and no token could
    be read), and then it leaves everything as it was: no notification,
    no call, no row, the running flag untouched. *)
Theorem runner_rejection_changes_nothing E props w e :
  fst (BenchmarkRunner.handleStartBenchmark E props w) = inl e ->
  snd (BenchmarkRunner.handleStartBenchmark E props w) = w /\
  BenchmarkRunner.selectedScenarios props <> [] /\
  resolve_token E (BenchmarkRunner.userSecrets props) = None.
Proof.
  runner_cases E props w; intros Hrej; try discriminate Hrej. auto.
Qed.

(** A secret that is not JSON. *)
Lemma runner_rejection_changes_nothing_witness :
  let props := BenchmarkRunner.mkProps ["s1"]%string "http://localhost:8000"
                 [scenario_s1] (Some (mkSession "u1")) (Some [mkSecret "not json"]) in
  snd (BenchmarkRunner.handleStartBenchmark stub_env props empty_world) = empty_world /\
  BenchmarkRunner.selectedScenarios props <> [] /\
  resolve_token stub_env (BenchmarkRunner.userSecrets props) = None.
Proof.
  exact (runner_rejection_changes_nothing stub_env
           (BenchmarkRunner.mkProps ["s1"]%string "http://localhost:8000"
              [scenario_s1] (Some (mkSession "u1")) (Some [mkSecret "not json"]))
           empty_world (JS.SyntaxError "JSON.parse") eq_refl).
Defined.

(** X11: once the checks of [BenchmarkRunner] have passed, a click ends in
    exactly one of two ways, whatever the collaborators answer.  Either
    nothing is logged, the running flag is still set, one run row per
    selected scenario was stored in selection order, and the last
    notification announces the success of the batch; or one error is
    logged to the console, the running flag is reset, and the last
    notification is the generic error. *)
Theorem runner_ends_in_one_of_two_ways E props token w :
  BenchmarkRunner.selectedScenarios props <> [] ->
  resolve_token E (BenchmarkRunner.userSecrets props) = Some token ->
  let w' := snd (BenchmarkRunner.handleStartBenchmark E props w) in
  (isRunning w' = true /\ console w' = console w /\
   (exists rs, runs w' = runs w ++ rs /\
               Run.scenario_id <$> rs = BenchmarkRunner.selectedScenarios props) /\
   last (toasts w') = Some (ToastSuccess "All benchmarks started successfully!")) \/
  (isRunning w' = false /\
   (exists e, console w' = console w ++ [("Error starting benchmark:"%string, e)]) /\
   last (toasts w') =
     Some (ToastError "An error occurred while starting the benchmark. Please try again.")).
Proof.
  intros Hsel Htok'. cbv zeta.
  runner_cases E props w.
  - congruence.
  - destruct Hwhy; congruence.
  - right. split; [reflexivity|]. split; [eexists; reflexivity|].
    apply last_snoc.
  - left. split; [reflexivity|]. split; [reflexivity|].
    split; [exists rs; split; [reflexivity | apply Hall; reflexivity]|].
    apply last_snoc.
Qed.

(** The batch over [s1, s2] where the project lookup of [s2] fails. *)
Lemma runner_ends_in_one_of_two_ways_witness :
  let w' := snd (BenchmarkRunner.handleStartBenchmark stub_env_fetch_fails_later runner_props
                   empty_world) in
  (isRunning w' = true /\ console w' = console empty_world /\
   (exists rs, runs w' = runs empty_world ++ rs /\
               Run.scenario_id <$> rs = BenchmarkRunner.selectedScenarios runner_props) /\
   last (toasts w') = Some (ToastSuccess "All benchmarks started successfully!")) \/
  (isRunning w' = false /\
   (exists e, console w' = console empty_world ++ [("Error starting benchmark:"%string, e)]) /\
   last (toasts w') =
     Some (ToastError "An error occurred while starting the benchmark. Please try again.")).
Proof.
  assert (H1 : BenchmarkRunner.selectedScenarios runner_props <> []) by discriminate.
  exact (runner_ends_in_one_of_two_ways stub_env_fetch_fails_later runner_props example_token
           empty_world H1 eq_refl).
Defined.

(** ** What [StartBenchmark] adds to the world, whatever the collaborators do *)

Lemma expected_refs_app scs rs rs' :
  expected_refs scs (rs ++ rs') = expected_refs scs rs ++ expected_refs scs rs'.
Proof. unfold expected_refs. apply bind_app. Qed.

Lemma expected_refs_singleton scs sc row :
  find_scenario scs (Run.scenario_id row) = Some sc ->
  expected_refs scs [row] =
  (fun reviewer => (Run.id row, Reviewer.id reviewer)) <$> default [] (Scenario.reviewers sc).
Proof.
  intros Hfind. unfold expected_refs, reviewers_of. cbn. rewrite Hfind. apply app_nil_r.
Qed.

Section PageProgress.
Variable E : Env.
Variable st : StartBenchmark.State.

Lemma page_results_progress rid evs v revs w r w' :
  for_of revs (fun reviewer => await_addResult E rid (Reviewer.id reviewer) evs v) w = (r, w') ->
  exists cs res,
    calls w' = calls w ++ cs /\
    toasts w' = toasts w /\
    runs w' = runs w /\
    results w' = results w ++ res /\
    navigations w' = navigations w /\
    console w' = console w /\
    isRunning w' = isRunning w /\
    Forall (page_call_ok st) cs /\
    result_refs <$> res `prefix_of` (fun reviewer => (rid, Reviewer.id reviewer)) <$> revs /\
    (r = inr tt -> result_refs <$> res = (fun reviewer => (rid, Reviewer.id reviewer)) <$> revs).
Proof.
  revert w. induction revs as [|rv revs IH]; intros w H.
  - injection H as <- <-. exists [], []. rewrite !app_nil_r.
    repeat split; try reflexivity. constructor.
  - simpl for_of in H. unfold bind in H. rewrite await_addResult_eq in H.
    set (c := CallInsertResult rid (Reviewer.id rv)) in H.
    destruct (addResult_mutateAsync E (calls (record_call c w))) as [e|new_id].
    + injection H as <- <-. exists [c], []. cbn. rewrite !app_nil_r.
      repeat split; try reflexivity.
      * repeat constructor.
      * apply prefix_nil.
      * discriminate.
    + apply IH in H.
      destruct H as (cs & res & Hc & Ht & Hr & Hres & Hn & Hco & Hf & Hcs & Hpre & Hall).
      exists (c :: cs), (StoredResult.mk new_id rid (Reviewer.id rv) evs v :: res).
      rewrite Hc, Ht, Hr, Hres, Hn, Hco, Hf. cbn. rewrite <- !app_assoc.
      repeat split; try reflexivity.
      * constructor; [exact I | exact Hcs].
      * apply (prefix_app [_]). exact Hpre.
      * intros Hok. rewrite (Hall Hok). reflexivity.
Qed.

Ltac page_leaf H cs ts :=
  cbn in H; injection H as <- <-;
  exists cs, ts, (@nil Run.t), (@nil StoredResult.t); cbn;
  rewrite <- ?app_assoc, ?app_nil_r; cbn;
  repeat match goal with
         | |- _ /\ _ => split
         | |- _ = _ => reflexivity
         | |- Forall _ [] => apply Forall_nil_2
         | |- Forall _ (_ :: _) => apply Forall_cons_2; [assumption|]
         | |- [] `prefix_of` _ => apply prefix_nil
         | |- _ -> _ => intros ?; discriminate
         end.

Lemma page_body_progress sid w r w' :
  StartBenchmark.scenario_body E st sid w = (r, w') ->
  page_progress st [sid] r w w'.
Proof.
  intros H. unfold StartBenchmark.scenario_body in H.
  destruct (find_scenario (StartBenchmark.scenarios st) sid) as [sc|] eqn:Hfind.
  2:{ page_leaf H (@nil Call) (@nil Toast). }
  destruct (find_scenario_elem _ _ _ Hfind) as [Hin Hid].
  unfold scenario_prop in H. unfold bind at 1 in H. unfold ret at 1 in H.
  unfold bind at 1 in H. rewrite await_impersonateUser_eq in H.
  set (c1 := CallImpersonate _ _ _) in H.
  assert (Hc1 : page_call_ok st c1) by (cbn; eauto).
  destruct (impersonateUser E (calls (record_call c1 w))) as [e|[pid req msgs|evs]].
  { page_leaf H [c1] (@nil Toast). }
  { page_leaf H [c1] (@nil Toast). }
  unfold bind at 1 in H. unfold ret at 1 in H.
  destruct (StartBenchmark.project_created_id evs) as [pid|] eqn:Hpid.
  2:{ page_leaf H [c1] (@nil Toast). }
  destruct (decide (pid = ""%string)) as [->|Hne].
  { page_leaf H [c1] (@nil Toast). }
  assert (H' :
    bind (session_user (StartBenchmark.session st))
      (fun user_id =>
         bind (await_addRun E sid (StartBenchmark.systemVersion st) (Some pid) user_id)
           (fun runData =>
              bind (scenario_reviewers sc)
                (fun reviewers =>
                   bind (for_of reviewers
                           (fun reviewer =>
                              await_addResult E (Run.id runData) (Reviewer.id reviewer) evs
                                (StartBenchmark.systemVersion st)))
                     (fun _ => toast (ToastSuccess ("Benchmark completed for scenario: "
                                                    +:+ Scenario.name sc))))))
      (record_call c1 w) = (r, w')).
  { destruct pid; [congruence | exact H]. }
  clear H. rename H' into H.
  unfold session_user in H.
  destruct (StartBenchmark.session st) as [[uid]|] eqn:Hsess.
  2:{ page_leaf H [c1] (@nil Toast). }
  unfold bind at 1 in H. unfold ret at 1 in H. cbn [session_user_id] in H.
  unfold bind at 1 in H. rewrite await_addRun_eq in H.
  set (c2 := CallInsertRun _ _ _ _ _ _) in H.
  assert (Hc2 : page_call_ok st c2).
  { unfold c2. cbn. rewrite Hfind. repeat split; eauto. }
  destruct (addRun_mutateAsync E (calls (record_call c2 (record_call c1 w)))) as [e|new_id].
  { page_leaf H [c1; c2] (@nil Toast). }
  set (row := Run.mk _ _ _ _ _ _ _) in H. cbn [Run.id] in H.
  assert (Hexp : expected_refs (StartBenchmark.scenarios st) [row] =
                 (fun reviewer => (new_id, Reviewer.id reviewer)) <$>
                   default [] (Scenario.reviewers sc)).
  { apply (expected_refs_singleton _ sc row). exact Hfind. }
  unfold bind at 1 in H. unfold scenario_reviewers in H.
  destruct (Scenario.reviewers sc) as [reviewers|].
  2:{ cbn in H. injection H as <- <-.
      exists [c1; c2], [], [row], []. rewrite Hexp. cbn.
      rewrite <- ?app_assoc, ?app_nil_r. cbn.
      repeat split; try reflexivity; try discriminate.
      - repeat (constructor; [assumption|]). constructor.
      - constructor. }
  unfold ret at 1 in H. cbn [default] in Hexp. unfold bind at 1 in H.
  destruct (for_of reviewers _ (add_run row (record_call c2 (record_call c1 w))))
    as [r4 w4] eqn:Hloop.
  apply page_results_progress in Hloop.
  destruct Hloop as (cs & res & Hc & Ht & Hr & Hres & Hn & Hco & Hf & Hcs & Hpre & Hall).
  destruct r4 as [e|[]].
  - injection H as <- <-. exists (c1 :: c2 :: cs), [], [row], res.
    rewrite Hc, Ht, Hr, Hres, Hn, Hco, Hf, Hexp. cbn. rewrite <- !app_assoc, !app_nil_r.
    repeat split; try reflexivity.
    + repeat (constructor; [assumption|]). exact Hcs.
    + constructor.
    + exact Hpre.
    + discriminate.
  - cbn in H. injection H as <- <-. eexists (c1 :: c2 :: cs), [_], [row], res.
    rewrite Hexp. cbn. rewrite Hc, Ht, Hr, Hres, Hn, Hco, Hf. cbn. rewrite <- !app_assoc.
    repeat split; try reflexivity.
    + repeat (constructor; [assumption|]). exact Hcs.
    + repeat constructor.
    + exact Hpre.
    + intros _. apply Hall. reflexivity.
Qed.

Lemma page_progress_nil w : page_progress st [] (inr tt) w w.
Proof.
  exists [], [], [], []. rewrite !app_nil_r.
  repeat split; try reflexivity; constructor.
Qed.

Lemma page_progress_throw sid sids e w w1 :
  page_progress st [sid] (inl e) w w1 ->
  page_progress st (sid :: sids) (inl e) w w1.
Proof.
  intros (cs & ts & rs & res & Hc & Ht & Hr & Hres & Hn & Hco & Hf & Hcs & Hts & Hpre & _
            & Hrefs & _).
  exists cs, ts, rs, res. repeat split; try assumption; try discriminate.
  etrans; [exact Hpre|]. apply (prefix_app_r [sid] [sid] sids). reflexivity.
Qed.

Lemma page_progress_step sid sids r w w1 w2 :
  page_progress st [sid] (inr tt) w w1 ->
  page_progress st sids r w1 w2 ->
  page_progress st (sid :: sids) r w w2.
Proof.
  intros (cs & ts & rs & res & Hc & Ht & Hr & Hres & Hn & Hco & Hf & Hcs & Hts & _ & Hall
            & _ & Hrefs)
         (cs' & ts' & rs' & res' & Hc' & Ht' & Hr' & Hres' & Hn' & Hco' & Hf' & Hcs' & Hts'
            & Hpre' & Hall' & Hrefsp' & Hrefs').
  specialize (Hall eq_refl). specialize (Hrefs eq_refl).
  exists (cs ++ cs'), (ts ++ ts'), (rs ++ rs'), (res ++ res').
  rewrite Hc', Hc, Ht', Ht, Hr', Hr, Hres', Hres, Hn', Hn, Hco', Hco, Hf', Hf.
  rewrite <- !app_assoc, !fmap_app, expected_refs_app, Hrefs, Hall.
  repeat split; try reflexivity.
  - apply Forall_app_2; assumption.
  - apply Forall_app_2; assumption.
  - apply (prefix_app [sid]). exact Hpre'.
  - intros Hok. rewrite (Hall' Hok). reflexivity.
  - apply prefix_app. exact Hrefsp'.
  - intros Hok. rewrite (Hrefs' Hok). reflexivity.
Qed.

Lemma page_loop_progress sids w r w' :
  for_of sids (StartBenchmark.scenario_body E st) w = (r, w') ->
  page_progress st sids r w w'.
Proof.
  revert w. induction sids as [|sid sids IH]; intros w H.
  - injection H as <- <-. apply page_progress_nil.
  - destruct (StartBenchmark.scenario_body E st sid w) as [[e|[]] w1] eqn:Hb.
    + rewrite (for_of_cons_throw _ _ _ _ _ _ Hb) in H. injection H as <- <-.
      apply page_progress_throw. apply page_body_progress. exact Hb.
    + rewrite (for_of_cons_ok _ _ _ _ _ Hb) in H.
      eapply page_progress_step; [apply page_body_progress; exact Hb|].
      apply IH. exact H.
Qed.

End PageProgress.

Lemma page_handler_cases E st w :
  (StartBenchmark.selectedScenarios st = [] /\
   StartBenchmark.handleStartBenchmark E st w =
   (inr tt, add_toast (ToastError "Please select at least one scenario to run.") w)) \/
  (exists rl wl,
     StartBenchmark.selectedScenarios st <> [] /\
     page_progress st (StartBenchmark.selectedScenarios st) rl (started w) wl /\
     StartBenchmark.handleStartBenchmark E st w =
     (inr tt,
      set_running false
        match rl with
        | inl e =>
            add_toast (ToastError "An error occurred while running the benchmark. Please try again.")
              (add_console "Error running benchmark:" e wl)
        | inr _ =>
            add_navigation "/"
              (add_toast (ToastSuccess "All benchmarks completed successfully!") wl)
        end)).
Proof.
  destruct (decide (StartBenchmark.selectedScenarios st = [])) as [Hnil|Hne].
  - left. split; [exact Hnil|]. unfold StartBenchmark.handleStartBenchmark.
    rewrite Hnil. reflexivity.
  - right.
    destruct (for_of (StartBenchmark.selectedScenarios st)
                (StartBenchmark.scenario_body E st) (started w)) as [rl wl] eqn:Hloop.
    exists rl, wl. split; [exact Hne|]. split.
    + eapply page_loop_progress. exact Hloop.
    + rewrite (page_handler_nonempty E st w Hne), page_try_eq, Hloop.
      destruct rl as [e|[]]; reflexivity.
Qed.

(** ** [StartBenchmark]: what a click does, whatever the collaborators answer *)

Ltac page_cases E st w :=
  destruct (page_handler_cases E st w)
    as [(Hnil & Heq)
       |(rl & wl & Hne & (cs & ts & rs & res & Hc & Ht & Hr & Hres & Hn & Hco & Hf
                            & Hcs & Hts & Hpre & Hall & Hrefsp & Hrefs) & Heq)];
  rewrite Heq; cbn [fst snd];
  [ | destruct rl as [err|[]]; cbn;
      rewrite ?Hc, ?Ht, ?Hr, ?Hres, ?Hn, ?Hco, ?Hf; cbn ].

(** X12: [handleStartBenchmark] of [StartBenchmark] never throws, and when
    the selection is not empty it leaves the running flag reset, whatever
    the collaborators answer; on an empty selection the flag is left as it
    was. *)
Theorem page_click_never_rejects E st w :
  fst (StartBenchmark.handleStartBenchmark E st w) = inr tt /\
  isRunning (snd (StartBenchmark.handleStartBenchmark E st w)) =
    match StartBenchmark.selectedScenarios st with
    | [] => isRunning w
    | _ :: _ => false
    end.
Proof.
  page_cases E st w.
  - rewrite Hnil. auto.
  - destruct (StartBenchmark.selectedScenarios st); [congruence | auto].
  - destruct (StartBenchmark.selectedScenarios st); [congruence | auto].
Qed.

(** X13: with a non-empty selection a click on [StartBenchmark] ends in
    exactly one of two ways.  Either it navigates to ["/"], logs nothing,
    announces the success of the batch last, and has stored one run per
    selected scenario, in order, and one result per reviewer of each of
    those runs; or it does not navigate, logs one error to the console and
    shows the generic error last. *)
Theorem page_ends_in_one_of_two_ways E st w :
  StartBenchmark.selectedScenarios st <> [] ->
  let w' := snd (StartBenchmark.handleStartBenchmark E st w) in
  (navigations w' = navigations w ++ ["/"%string] /\
   console w' = console w /\
   last (toasts w') = Some (ToastSuccess "All benchmarks completed successfully!") /\
   exists rs res,
     runs w' = runs w ++ rs /\ results w' = results w ++ res /\
     Run.scenario_id <$> rs = StartBenchmark.selectedScenarios st /\
     result_refs <$> res = expected_refs (StartBenchmark.scenarios st) rs) \/
  (navigations w' = navigations w /\
   (exists e, console w' = console w ++ [("Error running benchmark:"%string, e)]) /\
   last (toasts w') =
     Some (ToastError "An error occurred while running the benchmark. Please try again.")).
Proof.
  intros Hsel. cbv zeta. page_cases E st w.
  - congruence.
  - right. split; [reflexivity|]. split; [eexists; reflexivity|]. apply last_snoc.
  - left. split; [reflexivity|]. split; [reflexivity|]. split; [apply last_snoc|].
    exists rs, res. auto.
Qed.

(** The batch over [s1, s2] with collaborators that succeed. *)
Lemma page_ends_in_one_of_two_ways_witness :
  let w' := snd (StartBenchmark.handleStartBenchmark stub_env_events page_state empty_world) in
  (navigations w' = navigations empty_world ++ ["/"%string] /\
   console w' = console empty_world /\
   last (toasts w') = Some (ToastSuccess "All benchmarks completed successfully!") /\
   exists rs res,
     runs w' = runs empty_world ++ rs /\ results w' = results empty_world ++ res /\
     Run.scenario_id <$> rs = StartBenchmark.selectedScenarios page_state /\
     result_refs <$> res = expected_refs (StartBenchmark.scenarios page_state) rs) \/
  (navigations w' = navigations empty_world /\
   (exists e, console w' = console empty_world ++ [("Error running benchmark:"%string, e)]) /\
   last (toasts w') =
     Some (ToastError "An error occurred while running the benchmark. Please try again.")).
Proof.
  assert (H1 : StartBenchmark.selectedScenarios page_state <> []) by discriminate.
  exact (page_ends_in_one_of_two_ways stub_env_events page_state empty_world H1).
Defined.

(** X14: every call that [StartBenchmark] issues is an impersonation with
    the prompt of a loaded scenario, the chosen system version and no
    temperature; an insert of a run for a loaded scenario and the
    signed-in user, with a non-empty project id, no link and no state; or
    an insert of a result.  It never looks a project up and never starts a
    run. *)
Theorem page_calls_are_disciplined E st w :
  exists cs,
    calls (snd (StartBenchmark.handleStartBenchmark E st w)) = calls w ++ cs /\
    Forall (page_call_ok st) cs.
Proof.
  page_cases E st w.
  - exists []. cbn. rewrite app_nil_r. split; [reflexivity | constructor].
  - exists cs. auto.
  - exists cs. auto.
Qed.

(** X15: whatever the collaborators answer, the runs that a click on
    [StartBenchmark] stores are for an initial segment of the selection,
    and the results it stores refer, in order, to those runs and to the
    reviewers of their scenarios: no result refers to an older run or to a
    reviewer of another scenario. *)
Theorem page_results_reference_new_runs E st w :
  exists rs res,
    runs (snd (StartBenchmark.handleStartBenchmark E st w)) = runs w ++ rs /\
    results (snd (StartBenchmark.handleStartBenchmark E st w)) = results w ++ res /\
    Run.scenario_id <$> rs `prefix_of` StartBenchmark.selectedScenarios st /\
    result_refs <$> res `prefix_of` expected_refs (StartBenchmark.scenarios st) rs.
Proof.
  page_cases E st w.
  - exists [], []. cbn. rewrite !app_nil_r. repeat split; apply prefix_nil.
  - exists rs, res. auto.
  - exists rs, res. auto.
Qed.

(** X21: on scenario rows as [useBenchmarkScenarios] loads them, without
    a [reviewers] property, a click on [StartBenchmark] with collaborators
    that succeed stores the run of the first selected scenario and then
    fails on [scenario.reviewers]: no result is stored, no later scenario
    is run, the [TypeError] is logged, the generic error is shown last,
    the page does not navigate and the running flag is reset. *)
Theorem page_aborts_on_rows_without_reviewers E st sid rest sc s w :
  StartBenchmark.selectedScenarios st = sid :: rest ->
  find_scenario (StartBenchmark.scenarios st) sid = Some sc ->
  Scenario.reviewers sc = None ->
  StartBenchmark.session st = Some s ->
  page_collaborators_succeed E ->
  let w' := snd (StartBenchmark.handleStartBenchmark E st w) in
  (exists row, runs w' = runs w ++ [row] /\ Run.scenario_id row = sid) /\
  results w' = results w /\
  navigations w' = navigations w /\
  console w' = console w ++ [("Error running benchmark:"%string,
                              JS.TypeError "scenario.reviewers is not iterable")] /\
  last (toasts w') =
    Some (ToastError "An error occurred while running the benchmark. Please try again.") /\
  isRunning w' = false.
Proof.
  intros Hsel Hfind Hnone Hsess HE. cbv zeta.
  assert (Hne : StartBenchmark.selectedScenarios st <> []) by (rewrite Hsel; discriminate).
  rewrite (page_handler_nonempty E st w Hne), page_try_eq, Hsel.
  destruct (page_body_without_reviewers E st sid sc s (started w) HE Hfind Hnone Hsess)
    as (row & calls' & Hbody & Hsid).
  rewrite (for_of_cons_throw _ _ _ _ _ _ Hbody). cbn.
  split; [exists row; auto|]. repeat split. apply last_snoc.
Qed.

(** The page over the first example scenario as it is loaded. *)
Lemma page_aborts_on_rows_without_reviewers_witness :
  let w' := snd (StartBenchmark.handleStartBenchmark stub_env_events page_state_loaded
                   empty_world) in
  (exists row, runs w' = runs empty_world ++ [row] /\ Run.scenario_id row = "s1"%string) /\
  results w' = results empty_world /\
  navigations w' = navigations empty_world /\
  console w' = console empty_world ++ [("Error running benchmark:"%string,
                                        JS.TypeError "scenario.reviewers is not iterable")] /\
  last (toasts w') =
    Some (ToastError "An error occurred while running the benchmark. Please try again.") /\
  isRunning w' = false.
Proof.
  exact (page_aborts_on_rows_without_reviewers stub_env_events page_state_loaded
           "s1" ["s2"%string] scenario_row_s1 (mkSession "u1") empty_world
           eq_refl eq_refl eq_refl eq_refl stub_env_events_page_succeeds).
Defined.

(** ** The checkboxes and the click together *)

Lemma NoDup_prefix {A} (l l' : list A) : l `prefix_of` l' -> NoDup l' -> NoDup l.
Proof. intros [k ->] Hnd. apply NoDup_app in Hnd. tauto. Qed.

(** X16: when the selection was built by clicks on the checkboxes, one
    click on the start button of [StartBenchmark] stores at most one run
    per scenario. *)
Theorem page_stores_one_run_per_scenario E st (clicks : list string) w :
  StartBenchmark.selectedScenarios st = selection_after clicks ->
  exists rs,
    runs (snd (StartBenchmark.handleStartBenchmark E st w)) = runs w ++ rs /\
    NoDup (Run.scenario_id <$> rs).
Proof.
  intros Hsel.
  assert (Hnd : NoDup (StartBenchmark.selectedScenarios st)).
  { rewrite Hsel. apply foldl_toggle_NoDup. apply NoDup_nil_2. }
  destruct (page_handler_cases E st w)
    as [(Hnil & Heq)
       |(rl & wl & Hne & (cs & ts & rs & res & Hc & Ht & Hr & Hres & Hn & Hco & Hf
                            & Hcs & Hts & Hpre & Hall & Hrefsp & Hrefs) & Heq)];
    rewrite Heq; cbn [fst snd].
  - exists []. cbn. rewrite app_nil_r. split; [reflexivity | apply NoDup_nil_2].
  - exists rs. split; [destruct rl as [e|[]]; cbn; rewrite Hr; reflexivity|].
    eapply NoDup_prefix; [exact Hpre | exact Hnd].
Qed.

(** The selection [s1, s2] after a click on each checkbox. *)
Lemma page_stores_one_run_per_scenario_witness :
  exists rs,
    runs (snd (StartBenchmark.handleStartBenchmark stub_env_events page_state empty_world))
      = runs empty_world ++ rs /\
    NoDup (Run.scenario_id <$> rs).
Proof.
  exact (page_stores_one_run_per_scenario stub_env_events page_state ["s1"; "s2"]%string
           empty_world eq_refl).
Defined.

(** ** [RunResult]: more on the aggregation *)

Local Open Scope Z_scope.

Lemma dimension_of_nonempty useReviewer r : dimension_of useReviewer r <> ""%string.
Proof.
  unfold dimension_of. destruct (useReviewer (Result.reviewer_id r)) as [rv|]; [|discriminate].
  destruct (decide (Reviewer.dimension rv = ""%string)); [discriminate | assumption].
Qed.

Lemma filter_all {A} (P : A -> Prop) `{forall x, Decision (P x)} (l : list A) :
  (forall x, x ∈ l -> P x) -> filter P l = l.
Proof.
  induction l as [|x l IH]; intros Hall; [reflexivity|].
  rewrite filter_cons, decide_True by (apply Hall; left).
  rewrite IH; [reflexivity|]. intros y Hy. apply Hall. right. exact Hy.
Qed.

Lemma filter_none {A} (P : A -> Prop) `{forall x, Decision (P x)} (l : list A) :
  (forall x, x ∈ l -> ~ P x) -> filter P l = [].
Proof.
  induction l as [|x l IH]; intros Hall; [reflexivity|].
  rewrite filter_cons, decide_False by (apply Hall; left).
  apply IH. intros y Hy. apply Hall. right. exact Hy.
Qed.

Lemma entry_of_nonempty (l : list num) :
  l <> [] -> entry_of l = Some (mkEntry (sum l) (tally l)).
Proof. destruct l; [congruence | reflexivity]. Qed.

(** X17: the aggregate depends on the scores of each dimension in their
    order, and on nothing else: two result lists that give every dimension
    the same sequence of scores, however interleaved, have the same
    [scoreData], also for fractional scores. *)
Theorem scoreData_ignores_interleaving useReviewer (results results' : list Result.t) :
  (forall d, scores_of useReviewer d results = scores_of useReviewer d results') ->
  scoreData useReviewer results = scoreData useReviewer results'.
Proof.
  intros Hsame. apply map_eq. intros d. rewrite !scoreData_lookup, Hsame. reflexivity.
Qed.

(** Two fractional clarity scores and one safety score, interleaved in
    two ways. *)
Lemma scoreData_ignores_interleaving_witness :
  let results := [Result.mk "r1" (of_decimal 53 1); Result.mk "r2" (of_decimal 81 1);
                  Result.mk "r1" (of_Z 5)] in
  let results' := [Result.mk "r2" (of_decimal 81 1); Result.mk "r1" (of_decimal 53 1);
                   Result.mk "r1" (of_Z 5)] in
  scoreData example_useReviewer results = scoreData example_useReviewer results'.
Proof.
  apply scoreData_ignores_interleaving.
  intros d. unfold scores_of. rewrite !filter_cons, !filter_nil.
  change (dimension_of example_useReviewer (Result.mk "r1" (of_decimal 53 1)))
    with "clarity"%string.
  change (dimension_of example_useReviewer (Result.mk "r1" (of_Z 5))) with "clarity"%string.
  change (dimension_of example_useReviewer (Result.mk "r2" (of_decimal 81 1)))
    with "safety"%string.
  destruct (decide ("clarity"%string = d)) as [<-|H1];
    destruct (decide ("safety"%string = "clarity"%string)) as [H2|H2];
    try discriminate H2; try reflexivity.
Defined.

(** X18: [scoreData] has an entry for a label exactly when some result
    counts under it and the label is not a property name inherited from
    [Object.prototype]; no entry ever has the empty label, since an empty
    dimension counts as ["Unknown"]. *)
Theorem entries_are_the_dimensions_that_occur useReviewer (results : list Result.t) d :
  is_Some (scoreData useReviewer results !! d) <->
  inherited d = false /\ d <> ""%string /\
  exists r, r ∈ results /\ dimension_of useReviewer r = d.
Proof.
  rewrite scoreData_is_Some. split.
  - intros (Hi & r & Hr & Hd). split; [exact Hi|]. split; [|eauto].
    rewrite <- Hd. apply dimension_of_nonempty.
  - intros (Hi & _ & Hex). auto.
Qed.

(** X19: while no reviewer of the results is resolved (or all have an
    empty dimension), a non-empty result list aggregates to the single
    entry ["Unknown"], the rounded mean of all scores. *)
Theorem unresolved_reviewers_share_Unknown useReviewer (results : list Result.t) :
  results <> [] ->
  (forall r, r ∈ results ->
     match useReviewer (Result.reviewer_id r) with
     | Some reviewer => Reviewer.dimension reviewer = ""%string
     | None => True
     end) ->
  scoreData useReviewer results =
  {[ "Unknown"%string :=
       averageScore (mkEntry (sum (Result.score <$> results))
                             (tally (Result.score <$> results))) ]}.
Proof.
  intros Hne Hun.
  assert (Hdim : forall r, r ∈ results -> dimension_of useReviewer r = "Unknown"%string).
  { intros r Hr. specialize (Hun r Hr). unfold dimension_of.
    destruct (useReviewer (Result.reviewer_id r)) as [rv|]; [|reflexivity].
    rewrite decide_True by exact Hun. reflexivity. }
  apply map_eq. intros d. rewrite scoreData_lookup.
  destruct (decide (d = "Unknown"%string)) as [->|Hd].
  - rewrite lookup_singleton_eq. change (inherited "Unknown") with false. cbv iota.
    unfold scores_of. rewrite (filter_all _ results Hdim).
    destruct results as [|r l]; [congruence | reflexivity].
  - rewrite lookup_singleton_ne by congruence.
    destruct (inherited d); [reflexivity|].
    unfold scores_of. rewrite filter_none; [reflexivity|].
    intros r Hr Hrd. rewrite (Hdim r Hr) in Hrd. congruence.
Qed.

(** The scores [8, 6, 10] with no reviewer loaded. *)
Lemma unresolved_reviewers_share_Unknown_witness :
  scoreData (fun _ => None) scores_8_6_10 = {[ "Unknown"%string := of_Z 8 ]}.
Proof.
  assert (H1 : scores_8_6_10 <> []) by discriminate.
  exact (unresolved_reviewers_share_Unknown (fun _ => None) scores_8_6_10 H1 (fun _ _ => I)).
Defined.

(** X20: for fewer than [2^53] results with integer scores whose absolute
    values sum to less than [2^53], the accumulation is exact: the entry
    of a dimension that occurs (and is not an inherited name) is
    [toFixed(1)] of the binary64 quotient of the exact integer sum of its
    scores by their number.  The quotient is rounded to binary64 before
    [toFixed(1)] rounds it to one decimal, so the entry need not be the
    exact mean rounded to one decimal. *)
Theorem integer_scores_give_exact_mean useReviewer (zscore : Result.t -> Z)
    (results : list Result.t) d :
  (forall r, r ∈ results -> Result.score r = of_Z (zscore r)) ->
  zabs_sum (zscore <$> results) < 2 ^ 53 ->
  Z.of_nat (length results) < 2 ^ 53 ->
  inherited d = false ->
  (exists r, r ∈ results /\ dimension_of useReviewer r = d) ->
  let zs := zscore <$> filter (fun r => dimension_of useReviewer r = d) results in
  scoreData useReviewer results !! d =
  Some (parseFloat (toFixed1 (div (of_Z (zsum zs)) (of_Z (Z.of_nat (length zs)))))).
Proof.
  intros Hint Hbound Hlen Hi (r & Hr & Hd) zs.
  rewrite scoreData_lookup, Hi.
  pose proof (scores_of_occurs useReviewer results d r Hr Hd) as Hne.
  unfold scores_of in *.
  set (P := fun r => dimension_of useReviewer r = d) in *.
  rewrite (fmap_score_of_Z zscore (filter P results)) in *.
  2,3: intros x Hx; apply Hint; apply list_elem_of_filter in Hx; tauto.
  fold zs in Hne |- *.
  rewrite (entry_of_nonempty _ Hne). cbn [fmap option_fmap option_map].
  unfold averageScore. cbn [total count].
  pose proof (zabs_sum_filter zscore P results) as Hle. fold zs in Hle.
  pose proof (length_filter P results) as Hlf.
  rewrite sum_of_Z by lia.
  rewrite tally_of_Z by (rewrite length_fmap; unfold zs; rewrite length_fmap; lia).
  rewrite length_fmap. reflexivity.
Qed.

(** Seven scores of [1] and thirteen of [0]: the binary64 quotient of [7]
    by [20] is below [0.35], and the entry is [0.3]. *)
Lemma integer_scores_give_exact_mean_witness :
  scoreData example_useReviewer scores_seven_in_twenty !! "clarity"%string
  = Some (of_decimal 3 1).
Proof.
  assert (Hi : forall r, r ∈ scores_seven_in_twenty ->
                         Result.score r = of_Z (example_zscore r)).
  { intros r Hr. unfold scores_seven_in_twenty in Hr.
    apply elem_of_app in Hr. destruct Hr as [Hr|Hr];
      apply elem_of_replicate in Hr; destruct Hr as [-> _]; reflexivity. }
  assert (Hb : zabs_sum (example_zscore <$> scores_seven_in_twenty) < 2 ^ 53)
    by (vm_compute; reflexivity).
  assert (Hl : Z.of_nat (length scores_seven_in_twenty) < 2 ^ 53) by (vm_compute; reflexivity).
  assert (Hex : exists r, r ∈ scores_seven_in_twenty /\
                          dimension_of example_useReviewer r = "clarity"%string).
  { exists (Result.mk "r1" (of_Z 1)). split; [left | reflexivity]. }
  exact (integer_scores_give_exact_mean example_useReviewer example_zscore
           scores_seven_in_twenty "clarity" Hi Hb Hl eq_refl Hex).
Defined.

Local Close Scope Z_scope.
